(** * Studio Recorder: the upload handler of [audio_recorder.py]

    A shallow embedding of the FastAPI handler [upload] and of the helpers
    it calls ([_ffmpeg_bin], [_safe_stem], [_timestamp_name]), with the
    properties of the ingest pipeline stated over it.

    Python values are modelled as follows.
    - [str] is a list of Unicode code points ([pystr]); literals of the
      source are written [lit "..."].
    - [bytes] is a list of bytes.
    - [float] is an IEEE-754 binary64 number, [spec_float] at precision 53
      and maximal exponent 1024, so that NaN, the infinities and the two
      zeros are there and comparisons are the ones Python performs.
    - [None] is [None]; truthiness ([not x], [x or y]) is written out.
    - an exception is a value of [exn]; a handler runs in the monad [M],
      which threads the trace of side effects and stops at a [raise]. *)

From Stdlib Require Import List Bool ZArith NArith Lia Ascii String.
From Stdlib Require Import SpecFloat.
From Stdlib Require Import DecimalString.
Import ListNotations.

Set Implicit Arguments.

(** ** Python strings *)

Definition pystr := list N.
Definition bytes := list Byte.byte.

Definition lit (s : string) : pystr :=
  List.map N_of_ascii (list_ascii_of_string s).

Definition pystr_eqb (a b : pystr) : bool :=
  if list_eq_dec N.eq_dec a b then true else false.

(** [c in chars] for a one-character string [c]. *)
Definition char_in (c : N) (chars : pystr) : bool :=
  existsb (N.eqb c) chars.

(** [str.lstrip(chars)], [str.rstrip(chars)] and [str.strip(chars)]. *)
Fixpoint lstrip (chars s : pystr) : pystr :=
  match s with
  | [] => []
  | c :: t => if char_in c chars then lstrip chars t else s
  end.

Definition rstrip (chars s : pystr) : pystr :=
  rev (lstrip chars (rev s)).

Definition strip (chars s : pystr) : pystr :=
  rstrip chars (lstrip chars s).

(** [a or b] on strings: the empty string is falsy. *)
Definition str_or (a b : pystr) : pystr :=
  match a with
  | [] => b
  | _ :: _ => a
  end.

(** [a or b] when [a] may be [None]. *)
Definition opt_str_or (a : option pystr) (b : pystr) : pystr :=
  match a with
  | None => b
  | Some s => str_or s b
  end.

(** [not s] for an optional string. *)
Definition str_falsy (a : option pystr) : bool :=
  match a with
  | None | Some [] => true
  | Some (_ :: _) => false
  end.

Definition is_ascii (c : N) : bool := (c <? 128)%N.

(** [str.isalnum] on the ASCII range: digits and the two letter cases. *)
Definition ascii_isalnum (c : N) : bool :=
  ((48 <=? c) && (c <=? 57) || (65 <=? c) && (c <=? 90)
   || (97 <=? c) && (c <=? 122))%N.

Definition ascii_lower (c : N) : N :=
  if ((65 <=? c) && (c <=? 90))%N then (c + 32)%N else c.

(** What the interpreter and its standard library decide and the source
    does not: the Unicode tables behind [str.isalnum] and [str.lower]
    outside ASCII, the shortest-repr formatting of a float in an f-string,
    [datetime.strftime] at a clock reading, and the message of a
    [CalledProcessError]. *)
Class Runtime := {
  unicode_isalnum : N -> bool;
  unicode_lower : pystr -> pystr;
  float_repr : spec_float -> pystr;
  clock : Type;
  strftime : clock -> pystr -> pystr;
  called_process_error_str : list pystr -> Z -> pystr
}.

Section Sanitizer.

Context {rt : Runtime}.

Definition isalnum (c : N) : bool :=
  if is_ascii c then ascii_isalnum c else unicode_isalnum c.

(** [str.lower]: letter by letter on an ASCII string, by the Unicode
    tables (which are context sensitive) otherwise. *)
Definition lower (s : pystr) : pystr :=
  if forallb is_ascii s then List.map ascii_lower s else unicode_lower s.

(** ** [_safe_stem] *)

(** [ch.isalnum() or ch in "-_"], for a character [ch] *)
Definition stem_char_ok (ch : N) : bool :=
  isalnum ch || char_in ch (lit "-_").

(** [ch if ch.isalnum() or ch in "-_" else "_"] *)
Definition sanitize_char (ch : N) : N :=
  if stem_char_ok ch then ch else 95%N.

Definition _safe_stem (name : pystr) : pystr :=
  let stem := List.map sanitize_char name in
  str_or (strip (lit "_") stem) (lit "recording").

End Sanitizer.

(** ** [pathlib] on POSIX (CPython 3.12)

    [Path(p).name] is the last component of [p] once empty and ["."]
    components are dropped; [suffix] and [stem] cut it at its last dot
    when that dot is neither its first nor its last character. *)

Fixpoint split_on (sep : N) (s : pystr) : list pystr :=
  match s with
  | [] => [[]]
  | c :: t =>
      if N.eqb c sep then [] :: split_on sep t
      else match split_on sep t with
           | [] => [[c]]
           | h :: r => (c :: h) :: r
           end
  end.

Definition path_tail (p : pystr) : list pystr :=
  filter (fun x => negb (pystr_eqb x []) && negb (pystr_eqb x (lit ".")))
         (split_on 47%N p).

Definition path_name (p : pystr) : pystr := last (path_tail p) [].

(** [s.rfind(c)], [None] standing for [-1]. *)
Fixpoint rfind (c : N) (s : pystr) : option nat :=
  match s with
  | [] => None
  | x :: t =>
      match rfind c t with
      | Some i => Some (S i)
      | None => if N.eqb x c then Some 0 else None
      end
  end.

Definition path_suffix (p : pystr) : pystr :=
  let name := path_name p in
  match rfind 46%N name with
  | Some i =>
      if (0 <? i) && (i <? List.length name - 1) then skipn i name else []
  | None => []
  end.

Definition path_stem (p : pystr) : pystr :=
  let name := path_name p in
  match rfind 46%N name with
  | Some i =>
      if (0 <? i) && (i <? List.length name - 1) then firstn i name else name
  | None => name
  end.

(** [str(dir / name)] for an absolute [dir] and a single plain component
    [name]. *)
Definition joinpath (dir name : pystr) : pystr :=
  if pystr_eqb dir (lit "/") then dir ++ name
  else dir ++ lit "/" ++ name.

(** ** Floats *)

Definition float := spec_float.
Definition float_zero : float := S754_zero false.
Definition float_lt (a b : float) : bool := SFltb a b.
Definition float_le (a b : float) : bool := SFleb a b.
Definition float_sub (a b : float) : float := SFsub 53 1024 a b.

(** [x or d] for an optional float: [None] and both zeros are falsy, NaN
    is not. *)
Definition float_or (x : option float) (d : float) : float :=
  match x with
  | None => d
  | Some v => if SFeqb v float_zero then d else v
  end.

(** ** Exceptions *)

Inductive exc_class :=
| OSError
| FileNotFoundError
| ImportError
| ModuleNotFoundError
| SubprocessError
| CalledProcessError
| OtherException (qualname : pystr)
| KeyboardInterrupt
| SystemExit.

(** [issubclass(c, base)] among the classes above; every class named by
    [OtherException] derives from [Exception] only.  [KeyboardInterrupt]
    and [SystemExit] derive from [BaseException] and from nothing else
    here. *)
Definition issubclass (c base : exc_class) : bool :=
  match c, base with
  | OSError, OSError
  | FileNotFoundError, (FileNotFoundError | OSError)
  | ImportError, ImportError
  | ModuleNotFoundError, (ModuleNotFoundError | ImportError)
  | SubprocessError, SubprocessError
  | CalledProcessError, (CalledProcessError | SubprocessError) => true
  | OtherException a, OtherException b => pystr_eqb a b
  | _, _ => false
  end.

(** [issubclass(c, Exception)]: what [except Exception] catches. *)
Definition derives_from_Exception (c : exc_class) : bool :=
  match c with
  | KeyboardInterrupt | SystemExit => false
  | _ => true
  end.

(** A raised Python exception: its class and [str(exc)]. *)
Record pyexc := PyExc { exc_cls : exc_class; exc_str : pystr }.

Inductive exn :=
| HTTPException (status_code : Z) (detail : pystr)
| Py (e : pyexc).

(** ** Side effects and the handler monad

    A run of the handler leaves a trace: the files it wrote, the commands
    it handed to [subprocess.run] with what became of them, its calls to
    the storage client and the lines it printed on standard error. *)

Inductive run_result :=
| Exited (returncode : Z) (stdout stderr : pystr)
| SpawnRaised (e : pyexc).

Inductive event :=
| EvWriteBytes (path : pystr) (data : bytes)
| EvRun (argv : list pystr) (res : run_result)
| EvGcsClient
| EvGcsUpload (bucket blob filename : pystr)
| EvStderr (line : pystr).

Inductive result (A : Type) :=
| Ok (a : A)
| Raise (e : exn).
Arguments Raise {A} e.

Definition M (A : Type) : Type := (list event * result A)%type.

Definition ret {A} (a : A) : M A := ([], Ok a).
Definition raise {A} (e : exn) : M A := ([], Raise e).
Definition emit (ev : event) : M unit := ([ev], Ok tt).

Definition bind {A B} (m : M A) (f : A -> M B) : M B :=
  match snd m with
  | Ok a => (fst m ++ fst (f a), snd (f a))
  | Raise e => (fst m, Raise e)
  end.

Notation "x <- c1 ;; c2" := (bind c1 (fun x => c2))
  (at level 61, c1 at next level, right associativity).
Notation "c1 ;;; c2" := (bind c1 (fun _ => c2))
  (at level 61, right associativity).

(** [if cond: raise e] *)
Definition raise_if {A} (cond : bool) (e : exn) (k : M A) : M A :=
  if cond then raise e else k.

(** One [except (C1, ..., Cn) as e:] clause; the body receives [str(e)]. *)
Definition clause (A : Type) : Type := (list exc_class * (pystr -> M A))%type.

Fixpoint find_clause {A} (cs : list (clause A)) (e : pyexc)
  : option (pystr -> M A) :=
  match cs with
  | [] => None
  | (classes, body) :: rest =>
      if existsb (issubclass (exc_cls e)) classes then Some body
      else find_clause rest e
  end.

(** [try: m  except ...]: the first clause that matches handles the
    exception, an exception no clause matches propagates. *)
Definition try_except {A} (m : M A) (cs : list (clause A)) : M A :=
  match snd m with
  | Ok a => m
  | Raise (HTTPException _ _) => m
  | Raise (Py e) =>
      match find_clause cs e with
      | Some body => (fst m ++ fst (body (exc_str e)), snd (body (exc_str e)))
      | None => m
      end
  end.

Section Handler.

Context {rt : Runtime}.

(** ** The world of one request

    What the handler reads from its process and its collaborators.
    - [base_dir] is [str(BASE_DIR)], an absolute path;
    - [local_ffmpeg_ok] is [local.exists() and os.access(local, os.X_OK)];
    - [now] is the reading of [datetime.now()];
    - [spawn argv] is what starting [argv] gives: the exit of the process,
      or the exception of a launch that failed;
    - [gcs_import], [gcs_client] and [gcs_upload] are the exceptions, if
      any, of importing [google.cloud.storage], of [gcs.Client()] and of
      [blob.upload_from_filename];
    - [write_outcome path data] is the exception, if any, that
      [Path.write_bytes] raises for this path and content (a name too long
      for the file system, a NUL in the name, a directory that cannot be
      written). *)
Record world := World {
  base_dir : pystr;
  local_ffmpeg_ok : bool;
  now : clock;
  sys_executable : pystr;
  getenv : pystr -> option pystr;
  spawn : list pystr -> run_result;
  gcs_import : option pyexc;
  gcs_client : option pyexc;
  gcs_upload : pystr -> pystr -> pystr -> option pyexc;
  write_outcome : pystr -> bytes -> option pyexc
}.

Definition RECORDINGS_DIR (w : world) : pystr :=
  joinpath (base_dir w) (lit "recordings").

(** [path.write_bytes(data)]: the trace records a write that completed;
    one that raises leaves no event. *)
Definition write_bytes (w : world) (path : pystr) (data : bytes) : M unit :=
  match write_outcome w path data with
  | None => emit (EvWriteBytes path data)
  | Some e => raise (Py e)
  end.

Definition print_stderr (line : pystr) : M unit := emit (EvStderr line).

(** [subprocess.run(argv, check=check)]: the return code and the captured
    standard error. *)
Definition subprocess_run (w : world) (argv : list pystr) (check : bool)
  : M (Z * pystr) :=
  emit (EvRun argv (spawn w argv)) ;;;
  match spawn w argv with
  | SpawnRaised e => raise (Py e)
  | Exited rc _ err =>
      if check && negb (rc =? 0)%Z
      then raise (Py (PyExc CalledProcessError
                            (called_process_error_str argv rc)))
      else ret (rc, err)
  end.

(** A call into a collaborator that returns nothing of interest: it
    either completes or raises. *)
Definition call (r : option pyexc) : M unit :=
  match r with
  | None => ret tt
  | Some e => raise (Py e)
  end.

(** ** [_ffmpeg_bin] and [_timestamp_name] *)

Definition _ffmpeg_bin (w : world) : pystr :=
  let local := joinpath (base_dir w) (lit "ffmpeg") in
  if local_ffmpeg_ok w then local else lit "ffmpeg".

Definition _timestamp_name (w : world) (prefix : pystr) : pystr :=
  let ts := strftime (now w) (lit "%Y-%m-%d_%H-%M-%S") in
  prefix ++ lit "_" ++ ts.

(** ** The request and the response *)

Record UploadFile := { filename : option pystr; content : bytes }.

Record request := Request {
  file : UploadFile;
  name_base : option pystr;
  trim_start : option float;
  trim_end : option float;
  auto_upload_gcs : option pystr;
  auto_transcribe : option pystr
}.

Inductive json :=
| JStr (s : pystr)
| JBool (b : bool).

(** The body of a [JSONResponse] built from a dict, in insertion order. *)
Definition JSONResponse := list (string * json).

(** [flag == "1"] for an optional form field. *)
Definition is_one (flag : option pystr) : bool :=
  match flag with
  | Some s => pystr_eqb s (lit "1")
  | None => false
  end.

(** ** [upload] *)

(** The three guards on the trim values, in the order of the source. *)
Definition check_trim (trim_start trim_end : option float) : M unit :=
  raise_if (match trim_start with
            | Some ts => float_lt ts float_zero
            | None => false
            end)
    (HTTPException 400 (lit "trim_start must be >= 0"))
  (raise_if (match trim_end with
             | Some te => float_lt te float_zero
             | None => false
             end)
    (HTTPException 400 (lit "trim_end must be >= 0"))
  (raise_if (match trim_start, trim_end with
             | Some ts, Some te => float_le te ts
             | _, _ => false
             end)
    (HTTPException 400 (lit "trim_end must be > trim_start"))
  (ret tt))).

(** [ffmpeg_cmd] once both [extend] calls have run. *)
Definition ffmpeg_cmd (w : world) (original_path : pystr)
    (trim_start trim_end : option float) : list pystr :=
  let cmd := [_ffmpeg_bin w; lit "-y"; lit "-v"; lit "error"; lit "-i";
              original_path] in
  let cmd := match trim_start with
             | Some ts => cmd ++ [lit "-ss"; float_repr ts]
             | None => cmd
             end in
  match trim_end with
  | Some te =>
      let duration := float_sub te (float_or trim_start float_zero) in
      cmd ++ [lit "-t"; float_repr duration]
  | None => cmd
  end.

(** The argument vector handed to [subprocess.run] for the conversion. *)
Definition encoder_argv (w : world) (original_path mp3_path : pystr)
    (trim_start trim_end : option float) : list pystr :=
  ffmpeg_cmd w original_path trim_start trim_end
  ++ [lit "-vn"; lit "-ac"; lit "1"; lit "-ar"; lit "44100";
      lit "-codec:a"; lit "libmp3lame"; lit "-qscale:a"; lit "3"; mp3_path].

(** The [try] block around the conversion: [subprocess.run(..., check=True)]
    and its two [except] clauses. *)
Definition encode (w : world) (original_path mp3_path : pystr)
    (trim_start trim_end : option float) : M (Z * pystr) :=
  try_except
    (subprocess_run w
       (encoder_argv w original_path mp3_path trim_start trim_end) true)
    [([FileNotFoundError],
      fun exc => raise (HTTPException 500 (lit "ffmpeg not found: " ++ exc)));
     ([CalledProcessError],
      fun exc => raise (HTTPException 500 (lit "ffmpeg failed: " ++ exc)))].

(** The body of [if auto_upload_gcs == "1":]; its value is the final
    [auto_gcs_uploaded]. *)
Definition auto_upload (w : world) (mp3_name mp3_path : pystr) : M bool :=
  try_except
    (call (gcs_import w) ;;;
     emit EvGcsClient ;;;
     call (gcs_client w) ;;;
     match getenv w (lit "GOOGLE_CLOUD_BUCKET") with
     | Some ((_ :: _) as bucket_name) =>
         emit (EvGcsUpload bucket_name mp3_name mp3_path) ;;;
         call (gcs_upload w bucket_name mp3_name mp3_path) ;;;
         ret true
     | _ => ret false
     end)
    [([ImportError],
      fun _ =>
        print_stderr
          (lit "Google Cloud Storage library not installed; skipping auto-upload.") ;;;
        ret false);
     ([OSError],
      fun e => print_stderr (lit "Auto GCS upload failed: " ++ e) ;;; ret false)].

(** The body of [if auto_transcribe == "1":]; its value is the final
    [auto_transcribed]. *)
Definition auto_transcribe_run (w : world) (mp3_path : pystr) : M bool :=
  try_except
    (res <- subprocess_run w
              [sys_executable w; joinpath (base_dir w) (lit "gc_stt.py");
               mp3_path] false ;;
     if (fst res =? 0)%Z then ret true
     else print_stderr (lit "Auto transcription failed: " ++ snd res) ;;;
          ret false)
    [([OSError; SubprocessError],
      fun e =>
        print_stderr (lit "Auto transcription error: " ++ e) ;;; ret false)].

Definition upload (w : world) (r : request) : M JSONResponse :=
  raise_if (str_falsy (filename (file r)))
    (HTTPException 400 (lit "missing filename"))
  (let fname := match filename (file r) with Some s => s | None => [] end in
   let base := _safe_stem (opt_str_or (name_base r)
                             (str_or (path_stem fname) (lit "recording"))) in
   let stem := _timestamp_name w base in
   let original_ext := lower (str_or (path_suffix fname) (lit ".bin")) in
   let original_name := stem ++ original_ext in
   let original_path := joinpath (RECORDINGS_DIR w) original_name in
   let content := content (file r) in
   raise_if (match content with [] => true | _ :: _ => false end)
     (HTTPException 400 (lit "empty upload"))
   (write_bytes w original_path content ;;;
    let mp3_name := stem ++ lit ".mp3" in
    let mp3_path := joinpath (RECORDINGS_DIR w) mp3_name in
    check_trim (trim_start r) (trim_end r) ;;;
    encode w original_path mp3_path (trim_start r) (trim_end r) ;;;
    auto_gcs_uploaded <-
      (if is_one (auto_upload_gcs r) then auto_upload w mp3_name mp3_path
       else ret false) ;;
    auto_transcribed <-
      (if is_one (auto_transcribe r) then auto_transcribe_run w mp3_path
       else ret false) ;;
    ret [("original_filename"%string, JStr original_name);
         ("mp3_filename"%string, JStr mp3_name);
         ("original_url"%string, JStr (lit "/recordings/" ++ original_name));
         ("mp3_url"%string, JStr (lit "/recordings/" ++ mp3_name));
         ("auto_gcs_uploaded"%string, JBool auto_gcs_uploaded);
         ("auto_transcribed"%string, JBool auto_transcribed)])).

End Handler.

(** ** Reading a run of the handler *)

Section Observations.

Context {rt : Runtime}.

(** The local variables of [upload] as functions of the request. *)
Definition fname_of (r : request) : pystr :=
  match filename (file r) with Some s => s | None => [] end.

Definition stem_of (w : world) (r : request) : pystr :=
  _timestamp_name w
    (_safe_stem (opt_str_or (name_base r)
                   (str_or (path_stem (fname_of r)) (lit "recording")))).

Definition original_name_of (w : world) (r : request) : pystr :=
  stem_of w r ++ lower (str_or (path_suffix (fname_of r)) (lit ".bin")).

Definition mp3_name_of (w : world) (r : request) : pystr :=
  stem_of w r ++ lit ".mp3".

Definition original_path_of (w : world) (r : request) : pystr :=
  joinpath (RECORDINGS_DIR w) (original_name_of w r).

Definition mp3_path_of (w : world) (r : request) : pystr :=
  joinpath (RECORDINGS_DIR w) (mp3_name_of w r).

(** What [upload] does once the conversion has succeeded: the two
    optional steps and the response. *)
Definition publish_and_respond (w : world) (r : request) : M JSONResponse :=
  auto_gcs_uploaded <-
    (if is_one (auto_upload_gcs r)
     then auto_upload w (mp3_name_of w r) (mp3_path_of w r)
     else ret false) ;;
  auto_transcribed <-
    (if is_one (auto_transcribe r)
     then auto_transcribe_run w (mp3_path_of w r)
     else ret false) ;;
  ret [("original_filename"%string, JStr (original_name_of w r));
       ("mp3_filename"%string, JStr (mp3_name_of w r));
       ("original_url"%string,
        JStr (lit "/recordings/" ++ original_name_of w r));
       ("mp3_url"%string, JStr (lit "/recordings/" ++ mp3_name_of w r));
       ("auto_gcs_uploaded"%string, JBool auto_gcs_uploaded);
       ("auto_transcribed"%string, JBool auto_transcribed)].

End Observations.

(** [original_path.write_bytes(content)] returns: the original is on
    disk. *)
Notation "'persisted' w r" :=
  (write_outcome w (original_path_of w r) (content (file r)) = None)
  (at level 10, w at level 9, r at level 9).

(** The value of a field of the response. *)
Fixpoint field (k : string) (j : JSONResponse) : option json :=
  match j with
  | [] => None
  | (k', v) :: rest => if String.eqb k k' then Some v else field k rest
  end.

(** The request was refused as a bad request (HTTP 400). *)
Definition bad_request {A} (r : result A) : Prop :=
  exists detail, r = Raise (HTTPException 400 detail).

(** The paths written, the commands run and the calls to the storage
    client, in the order of the trace. *)
Definition writes (t : list event) : list pystr :=
  flat_map (fun ev => match ev with EvWriteBytes p _ => [p] | _ => [] end) t.

Definition runs (t : list event) : list (list pystr) :=
  flat_map (fun ev => match ev with EvRun argv _ => [argv] | _ => [] end) t.

Definition gcs_calls (t : list event) : list event :=
  filter (fun ev => match ev with
                    | EvGcsClient | EvGcsUpload _ _ _ => true
                    | _ => false
                    end) t.

Definition stderr_lines (t : list event) : list pystr :=
  flat_map (fun ev => match ev with EvStderr l => [l] | _ => [] end) t.

(** ** A concrete runtime, world and requests

    Used to evaluate the handler: a runtime that knows the floats 1.0, 2.0
    and 3.0, a clock that is read as an already rendered time, and a
    deployment under [/srv/app] without a bundled encoder. *)

Definition f_one : float := S754_finite false 4503599627370496 (-52).
Definition f_two : float := S754_finite false 4503599627370496 (-51).
Definition f_three : float := S754_finite false 6755399441055744 (-51).

Definition demo_repr (x : float) : pystr :=
  if SFeqb x f_one then lit "1.0"
  else if SFeqb x f_two then lit "2.0"
  else if SFeqb x f_three then lit "3.0"
  else match x with
       | S754_zero false => lit "0.0"
       | S754_zero true => lit "-0.0"
       | S754_infinity false => lit "inf"
       | S754_infinity true => lit "-inf"
       | S754_nan => lit "nan"
       | S754_finite _ _ _ => lit "?"
       end.

Definition demo_runtime : Runtime :=
  {| unicode_isalnum := fun _ => false;
     unicode_lower := fun s => s;
     float_repr := demo_repr;
     clock := pystr;
     strftime := fun c _ => c;
     called_process_error_str := fun _ _ => lit "non-zero exit status" |}.

(** A world in which every collaborator works. *)
Definition demo_world : @world demo_runtime :=
  @World demo_runtime (lit "/srv/app") false (lit "2025-01-04_10-00-00")
    (lit "/usr/bin/python3") (fun _ => None) (fun _ => Exited 0 [] [])
    None None (fun _ _ _ => None) (fun _ _ => None).

(** The same deployment with no [ffmpeg] on the search path. *)
Definition world_no_ffmpeg : @world demo_runtime :=
  @World demo_runtime (lit "/srv/app") false (lit "2025-01-04_10-00-00")
    (lit "/usr/bin/python3") (fun _ => None)
    (fun _ => SpawnRaised
                (PyExc FileNotFoundError
                   (lit "[Errno 2] No such file or directory: 'ffmpeg'")))
    None None (fun _ _ _ => None) (fun _ _ => None).

(** The same deployment with the storage library installed and a bucket
    configured, but without application credentials: [gcs.Client()] raises
    [google.auth.exceptions.DefaultCredentialsError], a direct subclass of
    [GoogleAuthError], itself a direct subclass of [Exception]. *)
Definition world_no_credentials : @world demo_runtime :=
  @World demo_runtime (lit "/srv/app") false (lit "2025-01-04_10-00-00")
    (lit "/usr/bin/python3") (fun _ => Some (lit "studio-bucket"))
    (fun _ => Exited 0 [] [])
    None
    (Some (PyExc (OtherException
                    (lit "google.auth.exceptions.DefaultCredentialsError"))
                 (lit "Your default credentials were not found.")))
    (fun _ _ _ => None) (fun _ _ => None).

Definition demo_file : UploadFile :=
  {| filename := Some (lit "demo.wav"); content := [Byte.x52; Byte.x49] |}.

(** [name_base=session, trim_start=1.0, trim_end=3.0] *)
Definition req_session : request :=
  Request demo_file (Some (lit "session")) (Some f_one) (Some f_three)
    None None.

(** [trim_start=2.0, trim_end=1.0] *)
Definition req_bad_trim : request :=
  Request demo_file None (Some f_two) (Some f_one) None None.

(** No trim, [auto_upload_gcs=1] *)
Definition req_auto_gcs : request :=
  Request demo_file None None None (Some (lit "1")) None.

(** An upload that is already called [take.MP3]. *)
Definition req_mp3 : request :=
  Request {| filename := Some (lit "take.MP3");
             content := [Byte.x49; Byte.x44; Byte.x33] |}
    None None None None None.

(** An empty payload with every other field filled in. *)
Definition req_empty : request :=
  Request {| filename := Some (lit "demo.wav"); content := [] |}
    (Some (lit "session")) (Some f_one) (Some f_three)
    (Some (lit "1")) (Some (lit "1")).

(** An empty payload with only [trim_end=0.0]. *)
Definition req_empty_trim_end : request :=
  Request {| filename := Some (lit "demo.wav"); content := [] |}
    None None (Some float_zero) None None.

(** [take.MP3] with [trim_start=2.0, trim_end=1.0] *)
Definition req_mp3_bad_trim : request :=
  Request {| filename := Some (lit "take.MP3");
             content := [Byte.x49; Byte.x44; Byte.x33] |}
    None (Some f_two) (Some f_one) None None.

(** A deployment whose file system limits a file name to 255 bytes, as
    ext4 does: [write_bytes] raises [OSError] (ENAMETOOLONG) for a longer
    one. *)
Definition world_name_max : @world demo_runtime :=
  @World demo_runtime (lit "/srv/app") false (lit "2025-01-04_10-00-00")
    (lit "/usr/bin/python3") (fun _ => None) (fun _ => Exited 0 [] [])
    None None (fun _ _ _ => None)
    (fun path _ =>
       if (255 <? List.length (path_name path))%nat
       then Some (PyExc OSError
                    (lit "[Errno 36] File name too long: '" ++ path
                     ++ lit "'"))
       else None).

(** [name_base] of 300 letters, [trim_start=2.0, trim_end=1.0] *)
Definition req_long_name_bad_trim : request :=
  Request demo_file (Some (repeat 97%N 300)) (Some f_two) (Some f_one)
    None None.

(** Only [trim_end=0.0] *)
Definition req_trim_end_zero : request :=
  Request demo_file None None (Some float_zero) None None.

(** ** The health endpoint and further observations *)

Section Health.

Context {rt : Runtime}.

(** [health]: the body of the answer to [GET /api/health]. *)
Definition health (w : world) : JSONResponse :=
  [("ok"%string, JBool true); ("ffmpeg"%string, JStr (_ffmpeg_bin w))].

(** The command of the transcription step for a request. *)
Definition transcriber_argv (w : world) (r : request) : list pystr :=
  [sys_executable w; joinpath (base_dir w) (lit "gc_stt.py");
   mp3_path_of w r].

(** The argument vector of the conversion for a request. *)
Definition encoder_argv_of (w : world) (r : request) : list pystr :=
  encoder_argv w (original_path_of w r) (mp3_path_of w r)
    (trim_start r) (trim_end r).

(** The body of a successful answer with the given publish outcomes. *)
Definition response_of (w : world) (r : request) (b1 b2 : bool)
  : JSONResponse :=
  [("original_filename"%string, JStr (original_name_of w r));
   ("mp3_filename"%string, JStr (mp3_name_of w r));
   ("original_url"%string,
    JStr (lit "/recordings/" ++ original_name_of w r));
   ("mp3_url"%string, JStr (lit "/recordings/" ++ mp3_name_of w r));
   ("auto_gcs_uploaded"%string, JBool b1);
   ("auto_transcribed"%string, JBool b2)].

End Health.

(** The uploads handed to the storage client. *)
Definition gcs_uploads (t : list event) : list event :=
  filter (fun ev => match ev with
                    | EvGcsUpload _ _ _ => true
                    | _ => false
                    end) t.

(** A name that [_safe_stem] has nothing to do on: not empty, made of
    kept characters, with no underscore at either end. *)
Definition stem_safe {rt : Runtime} (s : pystr) : Prop :=
  s <> []
  /\ (forall c, In c s -> stem_char_ok c = true)
  /\ hd 0%N s <> 95%N
  /\ last s 0%N <> 95%N.

(** ** More concrete worlds and requests *)

(** The deployment under [/srv/app] with chosen collaborators. *)
Definition world_with (env : pystr -> option pystr)
    (run : list pystr -> run_result) (import_exc client_exc : option pyexc)
  : @world demo_runtime :=
  @World demo_runtime (lit "/srv/app") false (lit "2025-01-04_10-00-00")
    (lit "/usr/bin/python3") env run import_exc client_exc
    (fun _ _ _ => None) (fun _ _ => None).

(** [ffmpeg] works; every other command exits with status 1 and the given
    text on its standard error. *)
Definition run_only_ffmpeg (err : pystr) (argv : list pystr) : run_result :=
  if pystr_eqb (hd [] argv) (lit "ffmpeg") then Exited 0 [] []
  else Exited 1 [] err.


Definition world_ffmpeg_fails : @world demo_runtime :=
  world_with (fun _ => None) (fun _ => Exited 1 [] []) None None.

Definition world_stt_fails : @world demo_runtime :=
  world_with (fun _ => None)
    (run_only_ffmpeg (lit "Error: GOOGLE_CLOUD_PROJECT environment variable not set."))
    None None.




(** No trim, [auto_transcribe=1] *)
Definition req_auto_stt : request :=
  Request demo_file None None None None (Some (lit "1")).

(** No trim, both flags set *)
Definition req_auto_both : request :=
  Request demo_file None None None (Some (lit "1")) (Some (lit "1")).

(** [trim_end=nan] *)
Definition req_trim_nan : request :=
  Request demo_file None None (Some S754_nan) None None.

(** [trim_start=-1.0, trim_end=-1.0] *)
Definition f_minus_one : float :=
  S754_finite true 4503599627370496 (-52).

Definition req_negative_trim : request :=
  Request demo_file None (Some f_minus_one) (Some f_minus_one) None None.

(** * The scripts beside the server *)

(** ** A trace monad over any kind of event *)

Definition T (E A : Type) : Type := (list E * result A)%type.

Definition tret {E A} (a : A) : T E A := ([], Ok a).
Definition traise {E A} (e : exn) : T E A := ([], Raise e).
Definition temit {E} (ev : E) : T E unit := ([ev], Ok tt).

Definition tbind {E A B} (m : T E A) (f : A -> T E B) : T E B :=
  match snd m with
  | Ok a => (fst m ++ fst (f a), snd (f a))
  | Raise e => (fst m, Raise e)
  end.

Notation "x <~ c1 ;; c2" := (tbind c1 (fun x => c2))
  (at level 61, c1 at next level, right associativity).
Notation "c1 ;;~ c2" := (tbind c1 (fun _ => c2))
  (at level 61, right associativity).

(** A call that completes or raises, and one that returns a value or
    raises. *)
Definition tcall {E} (r : option pyexc) : T E unit :=
  match r with
  | None => tret tt
  | Some e => traise (Py e)
  end.

Definition tcall_value {E A} (r : pyexc + A) : T E A :=
  match r with
  | inl e => traise (Py e)
  | inr a => tret a
  end.

(** [try: m  except Exception as e: h(str(e))]: an exception whose class
    does not derive from [Exception] ([KeyboardInterrupt], [SystemExit])
    passes through.  The steps of the scripts raise Python exceptions
    only, so the remaining case of [exn] does not arise under it. *)
Definition tcatch_Exception {E A} (m : T E A) (h : pystr -> T E A) : T E A :=
  match snd m with
  | Raise (Py e) =>
      if derives_from_Exception (exc_cls e)
      then (fst m ++ fst (h (exc_str e)), snd (h (exc_str e)))
      else m
  | _ => m
  end.

(** [raise RuntimeError(msg)] *)
Definition RuntimeError (msg : pystr) : exn :=
  Py (PyExc (OtherException (lit "RuntimeError")) msg).

(** [str(x)] for a value that may be [None], as an f-string renders it. *)
Definition str_of_optional (x : option pystr) : pystr :=
  match x with
  | Some s => s
  | None => lit "None"
  end.

(** [str(n)] for a natural number. *)
Definition str_of_nat (n : nat) : pystr :=
  lit (NilEmpty.string_of_uint (Nat.to_uint n)).

(** [os.path.basename] on POSIX: what follows the last slash. *)
Definition basename (p : pystr) : pystr :=
  match rfind 47%N p with
  | Some i => skipn (S i) p
  | None => p
  end.

(** ** [gc_stt.py] *)

Module Stt.

(** One file of [response.results]: the status of its transcription and,
    for each result of its inline transcript, the transcripts of the
    alternatives. *)
Record file_result := FileResult {
  error_code : Z;
  error_message : pystr;
  transcript_results : list (list pystr)
}.

(** [response.results], in iteration order. *)
Definition response := list (pystr * file_result).

Inductive event :=
| Stdout (line : pystr)
| StorageClient (project : option pystr)
| BucketExists (bucket : pystr)
| UploadFile (bucket blob local_path : pystr)
| SpeechClientNew
| BatchRecognize (recognizer uri : pystr)
| OperationResult (timeout : Z).

(** The environment of the script and what its collaborators answer.
    [imports] is the exception, if any, of the imports at the top of the
    module; [uuid4] is [str(uuid4())]. *)
Record world := World {
  imports : option pyexc;
  PROJECT_ID : option pystr;
  DEFAULT_BUCKET : option pystr;
  storage_client : option pyexc;
  bucket_exists : pystr -> pyexc + bool;
  uuid4 : pystr;
  upload_from_filename : pystr -> pystr -> pystr -> option pyexc;
  speech_client : option pyexc;
  batch_recognize : pystr -> pystr -> option pyexc;
  operation_result : pyexc + response
}.

Definition print (line : pystr) : T event unit := temit (Stdout line).

Definition upload_to_gcs (w : world) (local_path bucket_name : pystr)
    (project_id : option pystr) : T event pystr :=
  temit (StorageClient project_id) ;;~
  tcall (storage_client w) ;;~
  temit (BucketExists bucket_name) ;;~
  found <~ tcall_value (bucket_exists w bucket_name) ;;
  if negb found then
    traise (RuntimeError
              (lit "Bucket '" ++ bucket_name
               ++ lit "' does not exist or is not accessible in project '"
               ++ str_of_optional project_id ++ lit "'."))
  else
    let blob_name :=
      lit "uploads/" ++ uuid4 w ++ lit "_" ++ basename local_path in
    temit (UploadFile bucket_name blob_name local_path) ;;~
    tcall (upload_from_filename w bucket_name blob_name local_path) ;;~
    tret (lit "gs://" ++ bucket_name ++ lit "/" ++ blob_name).

(** The loop over [enumerate(results, start=idx)]. *)
Fixpoint print_segments (idx : nat) (results : list (list pystr))
  : T event unit :=
  match results with
  | [] => tret tt
  | result :: rest =>
      match result with
      | [] => tret tt
      | alt :: _ =>
          print (lit "[Segment " ++ str_of_nat idx ++ lit "] " ++ alt)
      end ;;~
      print_segments (S idx) rest
  end.

Definition transcribe_long_audio (w : world) (input_file bucket_name : pystr)
  : T event response :=
  gcs_uri <~ upload_to_gcs w input_file bucket_name (PROJECT_ID w) ;;
  print (lit "Uploaded audio to " ++ gcs_uri) ;;~
  temit SpeechClientNew ;;~
  tcall (speech_client w) ;;~
  let recognizer :=
    lit "projects/" ++ str_of_optional (PROJECT_ID w)
    ++ lit "/locations/global/recognizers/_" in
  temit (BatchRecognize recognizer gcs_uri) ;;~
  tcall (batch_recognize w recognizer gcs_uri) ;;~
  print (lit "Waiting for transcription operation to complete...") ;;~
  temit (OperationResult 3600) ;;~
  resp <~ tcall_value (operation_result w) ;;
  match resp with
  | [] => traise (RuntimeError (lit "No transcription results returned."))
  | (file_key, res) :: _ =>
      if negb (error_code res =? 0)%Z then
        traise (RuntimeError
                  (lit "Transcription failed for " ++ file_key ++ lit ": "
                   ++ error_message res))
      else
        match transcript_results res with
        | [] => print (lit "No transcript text returned.") ;;~ tret resp
        | _ :: _ => print_segments 1 (transcript_results res) ;;~ tret resp
        end
  end.

(** What [parser.parse_args()] does with the command line: it ends the
    program itself ([--help] prints the usage and exits with status 0, a
    command line it cannot read exits with status 2), or it returns the
    namespace; [audio_file] and [bucket] are then what the command line
    gave for the positional argument and for [--bucket], before the
    defaults. *)
Inductive parse_outcome :=
| ParseExit (printed : list event) (status : Z)
| Parsed (audio_file bucket : option pystr).

(** How the process ends. *)
Inductive ending :=
| Finished
| RaisedSystemExit (msg : pystr)
| ArgparseExit (status : Z)
| Uncaught (e : exn).

(** The exit status the parent process sees, where the model determines
    it: a [SystemExit] with a message and an uncaught exception both give
    1; an uncaught [KeyboardInterrupt] or a [SystemExit] raised by a
    collaborator is left open. *)
Definition exit_status (x : ending) : option Z :=
  match x with
  | Finished => Some 0%Z
  | RaisedSystemExit _ => Some 1%Z
  | ArgparseExit status => Some status
  | Uncaught (Py e) =>
      if derives_from_Exception (exc_cls e) then Some 1%Z else None
  | Uncaught (HTTPException _ _) => Some 1%Z
  end.

(** The script run as a program: the imports at the top of the module,
    [parse_args], the two checks and the call of
    [transcribe_long_audio]. *)
Definition main (w : world) (cmdline : parse_outcome)
  : list event * ending :=
  match imports w with
  | Some e => ([], Uncaught (Py e))
  | None =>
      match cmdline with
      | ParseExit printed status => (printed, ArgparseExit status)
      | Parsed audio_file bucket =>
          let audio_file :=
            match audio_file with
            | Some f => f
            | None => lit "apple_history.mp3"
            end in
          let bucket :=
            match bucket with
            | Some b => Some b
            | None => DEFAULT_BUCKET w
            end in
          if str_falsy (PROJECT_ID w) then
            ([], RaisedSystemExit
                   (lit "Error: GOOGLE_CLOUD_PROJECT environment variable not set."))
          else if str_falsy bucket then
            ([], RaisedSystemExit
                   (lit "Error: specify a bucket via --bucket or set GOOGLE_CLOUD_BUCKET environment variable."))
          else
            let bucket := str_of_optional bucket in
            let run :=
              print (lit "Transcribing: " ++ audio_file) ;;~
              print (lit "Using project: "
                     ++ str_of_optional (PROJECT_ID w)) ;;~
              print (lit "Uploading to bucket: " ++ bucket) ;;~
              transcribe_long_audio w audio_file bucket in
            (fst run, match snd run with
                      | Ok _ => Finished
                      | Raise e => Uncaught e
                      end)
      end
  end.

(** A project, a bucket and collaborators that all work; the service
    answers with the given response. *)
Definition world_ok (resp : response) : world :=
  World None (Some (lit "studio")) (Some (lit "studio-bucket")) None
    (fun _ => inr true) (lit "0f8fad5b-d9cb-469f-a165-70867728950e")
    (fun _ _ _ => None) None (fun _ _ => None) (inr resp).

(** The same without [GOOGLE_CLOUD_PROJECT]. *)
Definition world_no_project : world :=
  World None None (Some (lit "studio-bucket")) None
    (fun _ => inr true) (lit "0f8fad5b-d9cb-469f-a165-70867728950e")
    (fun _ _ _ => None) None (fun _ _ => None) (inr []).

(** The same with a bucket that does not exist. *)
Definition world_no_bucket : world :=
  World None (Some (lit "studio")) (Some (lit "studio-bucket")) None
    (fun _ => inr false) (lit "0f8fad5b-d9cb-469f-a165-70867728950e")
    (fun _ _ _ => None) None (fun _ _ => None) (inr []).

(** An answer for one file without any transcript. *)
Definition response_silent : response :=
  [(lit "gs://studio-bucket/uploads/x.mp3", FileResult 0 [] [])].

End Stt.

(** ** [cli_audio_recorder.py] *)

Module Cli.

Inductive event :=
| Stdout (line : pystr)
| WavWrite (filename : pystr) (rate : Z) (data : list Z)
| FromWav (filename : pystr)
| Export (filename format : pystr)
| Remove (filename : pystr).

(** What the libraries behind [save_recording] answer. *)
Record world {rt : Runtime} := World {
  now : clock;
  wavwrite : pystr -> option pyexc;
  from_wav : pystr -> option pyexc;
  export : pystr -> option pyexc;
  os_remove : pystr -> option pyexc
}.

Definition print (line : pystr) : T event unit := temit (Stdout line).

(** [save_recording(audio_data, rate)]: the name of the MP3, or [None]. *)
Definition save_recording {rt : Runtime} (w : world)
    (audio_data : option (list Z)) (rate : Z) : T event (option pystr) :=
  match audio_data with
  | None => tret None
  | Some data =>
      tcatch_Exception
        (let timestamp := strftime (now w) (lit "%Y-%m-%d_%H-%M-%S") in
         let wav_filename := lit "recording_" ++ timestamp ++ lit ".wav" in
         let mp3_filename := lit "recording_" ++ timestamp ++ lit ".mp3" in
         temit (WavWrite wav_filename rate data) ;;~
         tcall (wavwrite w wav_filename) ;;~
         temit (FromWav wav_filename) ;;~
         tcall (from_wav w wav_filename) ;;~
         temit (Export mp3_filename (lit "mp3")) ;;~
         tcall (export w mp3_filename) ;;~
         temit (Remove wav_filename) ;;~
         tcall (os_remove w wav_filename) ;;~
         print (lit "Recording saved as " ++ mp3_filename) ;;~
         tret (Some mp3_filename))
        (fun e => print (lit "Error saving recording: " ++ e) ;;~ tret None)
  end.

Definition wav_name {rt : Runtime} (w : world) : pystr :=
  lit "recording_" ++ strftime (now w) (lit "%Y-%m-%d_%H-%M-%S")
  ++ lit ".wav".

Definition mp3_name {rt : Runtime} (w : world) : pystr :=
  lit "recording_" ++ strftime (now w) (lit "%Y-%m-%d_%H-%M-%S")
  ++ lit ".mp3".

Definition removes (t : list event) : list pystr :=
  flat_map (fun ev => match ev with Remove f => [f] | _ => [] end) t.

Definition exports (t : list event) : list pystr :=
  flat_map (fun ev => match ev with Export f _ => [f] | _ => [] end) t.

Definition wav_writes (t : list event) : list pystr :=
  flat_map (fun ev => match ev with WavWrite f _ _ => [f] | _ => [] end) t.

(** Libraries that work, except that the temporary WAV cannot be
    removed. *)
Definition world_remove_fails : @world demo_runtime :=
  @World demo_runtime (lit "2025-01-04_10-00-00")
    (fun _ => None) (fun _ => None) (fun _ => None)
    (fun _ => Some (PyExc OSError (lit "[Errno 13] Permission denied"))).

(** Libraries that work, except for the MP3 encoder behind [export]. *)
Definition world_export_fails : @world demo_runtime :=
  @World demo_runtime (lit "2025-01-04_10-00-00")
    (fun _ => None) (fun _ => None)
    (fun _ => Some (PyExc FileNotFoundError
                      (lit "[Errno 2] No such file or directory: 'ffmpeg'")))
    (fun _ => None).

Definition world_ok : @world demo_runtime :=
  @World demo_runtime (lit "2025-01-04_10-00-00")
    (fun _ => None) (fun _ => None) (fun _ => None) (fun _ => None).


End Cli.

(** * Properties *)

(** ** The sanitizer *)

Section StripFacts.

Variable chars : pystr.

Lemma lstrip_head (s : pystr) (c : N) (t : pystr) :
  lstrip chars s = c :: t -> char_in c chars = false.
Proof.
  induction s as [|a s IH]; simpl; [discriminate|].
  destruct (char_in a chars) eqn:E; [exact IH|].
  intros H; injection H as -> _; exact E.
Qed.

Lemma lstrip_fixed (s : pystr) :
  match s with [] => True | c :: _ => char_in c chars = false end ->
  lstrip chars s = s.
Proof.
  destruct s as [|c t]; simpl; [reflexivity|].
  intros ->; reflexivity.
Qed.

Lemma lstrip_idem (s : pystr) :
  lstrip chars (lstrip chars s) = lstrip chars s.
Proof.
  apply lstrip_fixed.
  destruct (lstrip chars s) as [|c t] eqn:E; [exact I|].
  exact (lstrip_head _ E).
Qed.

Lemma lstrip_is_suffix (s : pystr) :
  exists p, s = p ++ lstrip chars s.
Proof.
  induction s as [|a s [p IH]]; simpl.
  - exists []; reflexivity.
  - destruct (char_in a chars).
    + exists (a :: p); simpl; f_equal; exact IH.
    + exists []; reflexivity.
Qed.

Lemma rstrip_is_prefix (s : pystr) :
  exists q, s = rstrip chars s ++ q.
Proof.
  unfold rstrip.
  destruct (lstrip_is_suffix (rev s)) as [p Hp].
  exists (rev p).
  rewrite <- rev_app_distr, <- Hp, rev_involutive; reflexivity.
Qed.

Lemma rstrip_idem (s : pystr) :
  rstrip chars (rstrip chars s) = rstrip chars s.
Proof.
  unfold rstrip; rewrite rev_involutive, lstrip_idem; reflexivity.
Qed.

Lemma lstrip_all (s : pystr) :
  (forall c, In c s -> char_in c chars = true) -> lstrip chars s = [].
Proof.
  induction s as [|a s IH]; simpl; intros H; [reflexivity|].
  rewrite (H a (or_introl eq_refl)); apply IH; intros c Hc; apply H; now right.
Qed.

Lemma strip_idem (s : pystr) :
  strip chars (strip chars s) = strip chars s.
Proof.
  unfold strip.
  assert (H : lstrip chars (rstrip chars (lstrip chars s))
              = rstrip chars (lstrip chars s)).
  { apply lstrip_fixed.
    destruct (rstrip_is_prefix (lstrip chars s)) as [q Hq].
    destruct (rstrip chars (lstrip chars s)) as [|c t]; [exact I|].
    exact (lstrip_head _ Hq). }
  rewrite H; apply rstrip_idem.
Qed.

Lemma strip_incl (s : pystr) (c : N) : In c (strip chars s) -> In c s.
Proof.
  unfold strip; intros H.
  destruct (rstrip_is_prefix (lstrip chars s)) as [q Hq].
  destruct (lstrip_is_suffix s) as [p Hp].
  rewrite Hp, Hq, !in_app_iff; auto.
Qed.

End StripFacts.

Section SanitizerProps.

Context {rt : Runtime}.

Lemma stem_char_ok_underscore : stem_char_ok 95 = true.
Proof. unfold stem_char_ok; rewrite orb_true_iff; right; reflexivity. Qed.

Lemma stem_char_ok_cases (ch : N) :
  stem_char_ok ch = true <-> isalnum ch = true \/ ch = 45%N \/ ch = 95%N.
Proof.
  unfold stem_char_ok, char_in, lit; simpl.
  rewrite !orb_true_iff, !N.eqb_eq; intuition discriminate.
Qed.

Lemma sanitize_char_ok (ch : N) : stem_char_ok (sanitize_char ch) = true.
Proof.
  unfold sanitize_char; destruct (stem_char_ok ch) eqn:E;
    [exact E | exact stem_char_ok_underscore].
Qed.

Lemma map_sanitize_fixed (s : pystr) :
  (forall c, In c s -> stem_char_ok c = true) ->
  List.map sanitize_char s = s.
Proof.
  induction s as [|a s IH]; simpl; intros H; [reflexivity|].
  unfold sanitize_char at 1; rewrite (H a (or_introl eq_refl)).
  f_equal; apply IH; intros c Hc; apply H; now right.
Qed.

Lemma safe_stem_unfold (s : pystr) :
  _safe_stem s = str_or (strip (lit "_") (List.map sanitize_char s))
                        (lit "recording").
Proof. reflexivity. Qed.

Lemma safe_stem_recording : _safe_stem (lit "recording") = lit "recording".
Proof. reflexivity. Qed.

Lemma safe_stem_chars (s : pystr) (c : N) :
  In c (_safe_stem s) -> stem_char_ok c = true.
Proof.
  rewrite safe_stem_unfold.
  destruct (strip (lit "_") (List.map sanitize_char s)) as [|a t] eqn:E;
    simpl str_or; intros H.
  - revert c H; apply Forall_forall.
    repeat constructor.
  - rewrite <- E in H; apply strip_incl in H.
    apply in_map_iff in H; destruct H as [x [<- _]]; apply sanitize_char_ok.
Qed.

Lemma safe_stem_idem (s : pystr) : _safe_stem (_safe_stem s) = _safe_stem s.
Proof.
  rewrite (safe_stem_unfold s).
  destruct (strip (lit "_") (List.map sanitize_char s)) as [|a t] eqn:E;
    simpl str_or.
  - exact safe_stem_recording.
  - rewrite safe_stem_unfold, map_sanitize_fixed.
    + rewrite <- E, strip_idem, E; reflexivity.
    + intros c Hc; rewrite <- E in Hc; apply strip_incl in Hc.
      apply in_map_iff in Hc; destruct Hc as [x [<- _]]; apply sanitize_char_ok.
Qed.

Lemma safe_stem_fallback (s : pystr) :
  (forall c, In c s -> stem_char_ok c = false) ->
  _safe_stem s = lit "recording".
Proof.
  intros H; rewrite safe_stem_unfold.
  unfold strip; rewrite lstrip_all; [reflexivity|].
  intros c Hc; apply in_map_iff in Hc; destruct Hc as [x [<- Hx]].
  unfold sanitize_char; rewrite (H x Hx); reflexivity.
Qed.

(** C6: [_safe_stem] is idempotent, a name made only of characters that
    are neither alphanumeric nor ['-'] nor ['_'] is sanitized to
    ["recording"], and every character of a sanitized name is
    alphanumeric, ['-'] or ['_']. *)
Theorem safe_stem_idempotent_fallback_charset (s : pystr) :
  _safe_stem (_safe_stem s) = _safe_stem s
  /\ ((forall ch, In ch s ->
         isalnum ch = false /\ ch <> 45%N /\ ch <> 95%N) ->
      _safe_stem s = lit "recording")
  /\ (forall ch, In ch (_safe_stem s) ->
        isalnum ch = true \/ ch = 45%N \/ ch = 95%N).
Proof.
  split; [apply safe_stem_idem|split].
  - intros H; apply safe_stem_fallback; intros c Hc.
    destruct (stem_char_ok c) eqn:E; [|reflexivity].
    apply stem_char_ok_cases in E; destruct (H c Hc) as [Ha [Hd Hu]].
    destruct E as [E|[E|E]]; congruence.
  - intros ch Hch; apply stem_char_ok_cases; exact (safe_stem_chars _ _ Hch).
Qed.

End SanitizerProps.

(** The sanitizer on a name with nothing to keep. *)
Lemma safe_stem_witness :
  let s := lit "?! /" in
  @_safe_stem demo_runtime (@_safe_stem demo_runtime s)
  = @_safe_stem demo_runtime s
  /\ @_safe_stem demo_runtime s = lit "recording".
Proof.
  intros s.
  destruct (@safe_stem_idempotent_fallback_charset demo_runtime s)
    as [Hidem [Hfall _]].
  split; [exact Hidem|].
  apply Hfall; intros ch Hch.
  simpl in Hch.
  destruct Hch as [<-|[<-|[<-|[<-|[]]]]]; repeat split; discriminate.
Defined.

(** ** Float comparison and subtraction *)

Lemma compare_cont_Eq_antisym (p q : positive) :
  Pos.compare_cont Eq q p = CompOpp (Pos.compare_cont Eq p q).
Proof. symmetry; exact (Pos.compare_cont_antisym p q Eq). Qed.

Lemma SFcompare_antisym (a b : float) :
  SFcompare b a = option_map CompOpp (SFcompare a b).
Proof.
  destruct a as [sa|sa| |sa ma ea], b as [sb|sb| |sb mb eb];
    try destruct sa; try destruct sb; try reflexivity;
    unfold SFcompare, option_map;
    rewrite (Z.compare_antisym ea eb), (compare_cont_Eq_antisym ma mb);
    destruct (ea ?= eb)%Z; simpl; rewrite ?CompOpp_involutive; reflexivity.
Qed.

Lemma float_lt_not_ge (a b : float) :
  float_lt a b = true -> float_le b a = false.
Proof.
  unfold float_lt, float_le, SFltb, SFleb.
  rewrite (SFcompare_antisym a b).
  destruct (SFcompare a b) as [[]|]; simpl; congruence.
Qed.

Lemma float_ge_zero_not_neg (x : float) :
  float_le float_zero x = true -> float_lt x float_zero = false.
Proof.
  unfold float_le, float_lt, float_zero, SFleb, SFltb.
  destruct x as [s|s| |s m e]; try destruct s; simpl; congruence.
Qed.

Lemma float_above_nonneg_not_neg (a b : float) :
  float_le float_zero a = true -> float_lt a b = true ->
  float_lt b float_zero = false.
Proof.
  unfold float_le, float_lt, float_zero, SFleb, SFltb.
  destruct a as [sa|sa| |sa ma ea], b as [sb|sb| |sb mb eb];
    try destruct sa; try destruct sb; simpl; congruence.
Qed.

Lemma float_sub_zero (x : float) : float_sub x float_zero = x.
Proof. destruct x as [s|s| |s m e]; try destruct s; reflexivity. Qed.

Lemma float_sub_or_zero (ts te : float) :
  float_lt ts te = true ->
  float_sub te (float_or (Some ts) float_zero) = float_sub te ts.
Proof.
  unfold float_or; destruct (SFeqb ts float_zero) eqn:E; [|reflexivity].
  revert E; unfold float_lt, float_sub, float_zero, SFeqb, SFltb.
  destruct ts as [sa|sa| |sa ma ea], te as [sb|sb| |sb mb eb];
    try destruct sa; try destruct sb; simpl; congruence.
Qed.

(** ** The handler monad *)

Lemma bind_ok {A B} (m : M A) (f : A -> M B) (a : A) :
  snd m = Ok a -> bind m f = (fst m ++ fst (f a), snd (f a)).
Proof. unfold bind; intros ->; reflexivity. Qed.

Lemma bind_raise {A B} (m : M A) (f : A -> M B) (e : exn) :
  snd m = Raise e -> bind m f = (fst m, Raise e).
Proof. unfold bind; intros ->; reflexivity. Qed.

Lemma bind_inv_ok {A B} (m : M A) (f : A -> M B) (b : B) :
  snd (bind m f) = Ok b ->
  exists a, snd m = Ok a /\ snd (f a) = Ok b
            /\ fst (bind m f) = fst m ++ fst (f a).
Proof.
  unfold bind; destruct (snd m) as [a|e]; simpl; [|discriminate].
  intros H; exists a; auto.
Qed.

Lemma bind_not_bad_request {A B} (m : M A) (f : A -> M B) :
  ~ bad_request (snd m) -> (forall a, ~ bad_request (snd (f a))) ->
  ~ bad_request (snd (bind m f)).
Proof.
  unfold bind, bad_request; intros Hm Hf.
  destruct (snd m) as [a|e] eqn:E; simpl.
  - apply Hf.
  - intros [d Hd]; apply Hm; exists d.
    injection Hd as ->; reflexivity.
Qed.

(** ** The steps of [upload] *)

Section HandlerProps.

Context {rt : Runtime}.

Lemma check_trim_cases (ts te : option float) :
  check_trim ts te = ([], Ok tt)
  \/ exists detail, check_trim ts te = ([], Raise (HTTPException 400 detail)).
Proof.
  unfold check_trim, raise_if.
  destruct ts as [a|], te as [b|];
    repeat match goal with
           | |- context [if float_lt ?x ?y then _ else _] =>
               destruct (float_lt x y)
           | |- context [if float_le ?x ?y then _ else _] =>
               destruct (float_le x y)
           end;
    first [left; reflexivity | right; eexists; reflexivity].
Qed.

Lemma check_trim_inverted (ts te : float) :
  float_le te ts = true ->
  exists detail,
    check_trim (Some ts) (Some te) = ([], Raise (HTTPException 400 detail)).
Proof.
  intros H; unfold check_trim, raise_if; rewrite H.
  destruct (float_lt ts float_zero); [eexists; reflexivity|].
  destruct (float_lt te float_zero); eexists; reflexivity.
Qed.

Lemma check_trim_window (ts te : float) :
  float_le float_zero ts = true -> float_lt ts te = true ->
  check_trim (Some ts) (Some te) = ([], Ok tt).
Proof.
  intros H0 Hlt; unfold check_trim, raise_if.
  rewrite (float_ge_zero_not_neg _ H0),
          (float_above_nonneg_not_neg _ _ H0 Hlt),
          (float_lt_not_ge _ _ Hlt).
  reflexivity.
Qed.

Lemma check_trim_end_only (te : float) :
  float_le float_zero te = true ->
  check_trim None (Some te) = ([], Ok tt).
Proof.
  intros H0; unfold check_trim, raise_if.
  rewrite (float_ge_zero_not_neg _ H0); reflexivity.
Qed.

Lemma encode_trace (w : world) (op mp : pystr) (ts te : option float) :
  fst (encode w op mp ts te)
  = [EvRun (encoder_argv w op mp ts te) (spawn w (encoder_argv w op mp ts te))].
Proof.
  unfold encode, try_except, subprocess_run, bind.
  destruct (spawn w _) as [rc out err|[c m]]; simpl.
  - destruct (rc =? 0)%Z; reflexivity.
  - destruct c; reflexivity.
Qed.

Lemma encode_not_bad_request (w : world) (op mp : pystr)
    (ts te : option float) :
  ~ bad_request (snd (encode w op mp ts te)).
Proof.
  unfold bad_request, encode, try_except, subprocess_run, bind.
  destruct (spawn w _) as [rc out err|[c m]]; simpl.
  - destruct (rc =? 0)%Z; simpl; intros [d Hd]; discriminate.
  - destruct c; simpl; intros [d Hd]; discriminate.
Qed.

Lemma encode_not_found (w : world) (op mp : pystr) (ts te : option float)
    (msg : pystr) :
  spawn w (encoder_argv w op mp ts te)
  = SpawnRaised (PyExc FileNotFoundError msg) ->
  snd (encode w op mp ts te)
  = Raise (HTTPException 500 (lit "ffmpeg not found: " ++ msg)).
Proof.
  intros H; unfold encode, try_except, subprocess_run, bind.
  rewrite H; reflexivity.
Qed.

Lemma auto_upload_not_http (w : world) (n p : pystr) :
  (exists b, snd (auto_upload w n p) = Ok b)
  \/ exists e, snd (auto_upload w n p) = Raise (Py e).
Proof.
  unfold auto_upload.
  match goal with |- context [try_except ?m ?cs] =>
    assert (Hm : (exists b, snd m = Ok b) \/ exists e, snd m = Raise (Py e))
  end.
  { unfold call, bind.
    destruct (gcs_import w) as [e|]; simpl; [right; eauto|].
    destruct (gcs_client w) as [e|]; simpl; [right; eauto|].
    destruct (getenv w _) as [[|c b]|]; simpl; [left; eauto| |left; eauto].
    destruct (gcs_upload w _ _ _) as [e|]; simpl; [right|left]; eauto. }
  unfold try_except.
  destruct Hm as [[b Hb]|[e He]]; [rewrite Hb; left; eauto|].
  rewrite He; simpl.
  destruct (issubclass (exc_cls e) ImportError); simpl; [left; eauto|].
  destruct (issubclass (exc_cls e) OSError); simpl; [left; eauto|].
  right; eauto.
Qed.

Lemma auto_transcribe_not_http (w : world) (p : pystr) :
  (exists b, snd (auto_transcribe_run w p) = Ok b)
  \/ exists e, snd (auto_transcribe_run w p) = Raise (Py e).
Proof.
  unfold auto_transcribe_run, try_except, subprocess_run, bind.
  destruct (spawn w _) as [rc out err|e]; simpl.
  - destruct (rc =? 0)%Z; simpl; left; eauto.
  - destruct (issubclass (exc_cls e) OSError); simpl; [left; eauto|].
    destruct (issubclass (exc_cls e) SubprocessError); simpl;
      [left|right]; eauto.
Qed.

(** ** [upload] as a whole *)

Lemma is_one_false (flag : option pystr) :
  flag <> Some (lit "1") -> is_one flag = false.
Proof.
  destruct flag as [s|]; simpl; [|reflexivity].
  unfold pystr_eqb; destruct (list_eq_dec N.eq_dec s (lit "1")) as [->|];
    [intros H; contradiction H|]; reflexivity.
Qed.

Lemma upload_missing_filename (w : world) (r : request) :
  str_falsy (filename (file r)) = true ->
  upload w r = ([], Raise (HTTPException 400 (lit "missing filename"))).
Proof. unfold upload, raise_if; intros ->; reflexivity. Qed.

Lemma upload_empty (w : world) (r : request) :
  str_falsy (filename (file r)) = false -> content (file r) = [] ->
  upload w r = ([], Raise (HTTPException 400 (lit "empty upload"))).
Proof. unfold upload, raise_if; intros -> ->; reflexivity. Qed.

Lemma upload_accepted (w : world) (r : request) :
  str_falsy (filename (file r)) = false -> content (file r) <> [] ->
  upload w r
  = (write_bytes w (original_path_of w r) (content (file r)) ;;;
     check_trim (trim_start r) (trim_end r) ;;;
     encode w (original_path_of w r) (mp3_path_of w r)
       (trim_start r) (trim_end r) ;;;
     publish_and_respond w r).
Proof.
  unfold upload, raise_if; intros -> Hc.
  destruct (content (file r)) as [|b bs] eqn:E; [contradiction|].
  reflexivity.
Qed.

Lemma upload_write_failed (w : world) (r : request) (e : pyexc) :
  str_falsy (filename (file r)) = false -> content (file r) <> [] ->
  write_outcome w (original_path_of w r) (content (file r)) = Some e ->
  upload w r = ([], Raise (Py e)).
Proof.
  intros Hf Hc Hw; rewrite (upload_accepted w r Hf Hc).
  unfold write_bytes; rewrite Hw; reflexivity.
Qed.

Lemma upload_trim_refused (w : world) (r : request) (e : exn) :
  str_falsy (filename (file r)) = false -> content (file r) <> [] ->
  persisted w r ->
  check_trim (trim_start r) (trim_end r) = ([], Raise e) ->
  upload w r
  = ([EvWriteBytes (original_path_of w r) (content (file r))], Raise e).
Proof.
  intros Hf Hc Hp Ht; rewrite (upload_accepted w r Hf Hc).
  unfold write_bytes; rewrite Hp.
  unfold emit, bind at 1; simpl.
  rewrite (bind_raise _ _ (e:=e)); rewrite Ht; reflexivity.
Qed.

Lemma upload_converting (w : world) (r : request) :
  str_falsy (filename (file r)) = false -> content (file r) <> [] ->
  persisted w r ->
  check_trim (trim_start r) (trim_end r) = ([], Ok tt) ->
  upload w r
  = (EvWriteBytes (original_path_of w r) (content (file r))
       :: fst (encode w (original_path_of w r) (mp3_path_of w r)
                 (trim_start r) (trim_end r) ;;;
               publish_and_respond w r),
     snd (encode w (original_path_of w r) (mp3_path_of w r)
            (trim_start r) (trim_end r) ;;;
          publish_and_respond w r)).
Proof.
  intros Hf Hc Hp Ht; rewrite (upload_accepted w r Hf Hc).
  unfold write_bytes; rewrite Hp.
  unfold emit, bind at 1; simpl.
  rewrite (bind_ok _ _ (a:=tt)); rewrite Ht; reflexivity.
Qed.

Lemma bind_trace_prefix {A B} (m : M A) (f : A -> M B) :
  exists rest, fst (bind m f) = fst m ++ rest.
Proof.
  unfold bind; destruct (snd m) as [a|e]; simpl.
  - eexists; reflexivity.
  - exists []; rewrite app_nil_r; reflexivity.
Qed.

Lemma publish_and_respond_not_bad_request (w : world) (r : request) :
  ~ bad_request (snd (publish_and_respond w r)).
Proof.
  unfold publish_and_respond.
  apply bind_not_bad_request.
  - destruct (is_one (auto_upload_gcs r)).
    + destruct (auto_upload_not_http w (mp3_name_of w r) (mp3_path_of w r))
        as [[b ->]|[e ->]]; intros [d Hd]; discriminate.
    + intros [d Hd]; discriminate.
  - intros a; apply bind_not_bad_request.
    + destruct (is_one (auto_transcribe r)).
      * destruct (auto_transcribe_not_http w (mp3_path_of w r))
          as [[b ->]|[e ->]]; intros [d Hd]; discriminate.
      * intros [d Hd]; discriminate.
    + intros b [d Hd]; discriminate.
Qed.

Lemma upload_converting_not_bad_request (w : world) (r : request) :
  str_falsy (filename (file r)) = false -> content (file r) <> [] ->
  persisted w r ->
  check_trim (trim_start r) (trim_end r) = ([], Ok tt) ->
  ~ bad_request (snd (upload w r)).
Proof.
  intros Hf Hc Hp Ht; rewrite (upload_converting w r Hf Hc Hp Ht); simpl snd.
  apply bind_not_bad_request.
  - apply encode_not_bad_request.
  - intros _; apply publish_and_respond_not_bad_request.
Qed.

Lemma upload_converting_trace (w : world) (r : request) :
  str_falsy (filename (file r)) = false -> content (file r) <> [] ->
  persisted w r ->
  check_trim (trim_start r) (trim_end r) = ([], Ok tt) ->
  exists rest,
    fst (upload w r)
    = EvWriteBytes (original_path_of w r) (content (file r))
      :: EvRun (encoder_argv w (original_path_of w r) (mp3_path_of w r)
                  (trim_start r) (trim_end r))
               (spawn w (encoder_argv w (original_path_of w r)
                           (mp3_path_of w r) (trim_start r) (trim_end r)))
      :: rest.
Proof.
  intros Hf Hc Hp Ht; rewrite (upload_converting w r Hf Hc Hp Ht); simpl fst.
  match goal with |- context [fst (bind ?m ?f)] =>
    destruct (bind_trace_prefix m f) as [rest ->]
  end.
  rewrite encode_trace; exists rest; reflexivity.
Qed.

Lemma filename_truthy (r : request) (fname : pystr) :
  filename (file r) = Some fname -> fname <> [] ->
  str_falsy (filename (file r)) = false /\ fname_of r = fname.
Proof.
  unfold fname_of; intros -> H; destruct fname; [contradiction|].
  split; reflexivity.
Qed.

Lemma publish_and_respond_off (w : world) (r : request) :
  is_one (auto_upload_gcs r) = false -> is_one (auto_transcribe r) = false ->
  publish_and_respond w r
  = ([], Ok [("original_filename"%string, JStr (original_name_of w r));
             ("mp3_filename"%string, JStr (mp3_name_of w r));
             ("original_url"%string,
              JStr (lit "/recordings/" ++ original_name_of w r));
             ("mp3_url"%string,
              JStr (lit "/recordings/" ++ mp3_name_of w r));
             ("auto_gcs_uploaded"%string, JBool false);
             ("auto_transcribed"%string, JBool false)]).
Proof. unfold publish_and_respond; intros -> ->; reflexivity. Qed.

Lemma upload_ok_inv (w : world) (r : request) (j : JSONResponse) :
  snd (upload w r) = Ok j ->
  str_falsy (filename (file r)) = false
  /\ content (file r) <> []
  /\ exists b1 b2,
       j = [("original_filename"%string, JStr (original_name_of w r));
            ("mp3_filename"%string, JStr (mp3_name_of w r));
            ("original_url"%string,
             JStr (lit "/recordings/" ++ original_name_of w r));
            ("mp3_url"%string,
             JStr (lit "/recordings/" ++ mp3_name_of w r));
            ("auto_gcs_uploaded"%string, JBool b1);
            ("auto_transcribed"%string, JBool b2)].
Proof.
  intros H.
  destruct (str_falsy (filename (file r))) eqn:Hf;
    [rewrite (upload_missing_filename w r Hf) in H; discriminate|].
  assert (Hc : content (file r) <> [])
    by (intros Hc; rewrite (upload_empty w r Hf Hc) in H; discriminate).
  destruct (write_outcome w (original_path_of w r) (content (file r)))
    as [e|] eqn:Hp;
    [rewrite (upload_write_failed w r Hf Hc Hp) in H; discriminate|].
  split; [reflexivity|split; [exact Hc|]].
  destruct (check_trim_cases (trim_start r) (trim_end r)) as [Ht|[d Ht]].
  - rewrite (upload_converting w r Hf Hc Hp Ht) in H; simpl snd in H.
    apply bind_inv_ok in H; destruct H as [_ [_ [H _]]].
    unfold publish_and_respond in H.
    apply bind_inv_ok in H; destruct H as [b1 [_ [H _]]].
    apply bind_inv_ok in H; destruct H as [b2 [_ [H _]]].
    exists b1, b2; simpl in H; injection H as <-; reflexivity.
  - rewrite (upload_trim_refused w r Hf Hc Hp Ht) in H; discriminate.
Qed.

Lemma upload_ok_persisted (w : world) (r : request) (j : JSONResponse) :
  snd (upload w r) = Ok j -> persisted w r.
Proof.
  intros H.
  destruct (str_falsy (filename (file r))) eqn:Hf;
    [rewrite (upload_missing_filename w r Hf) in H; discriminate|].
  assert (Hc : content (file r) <> [])
    by (intros Hc; rewrite (upload_empty w r Hf Hc) in H; discriminate).
  destruct (write_outcome w (original_path_of w r) (content (file r)))
    as [e|] eqn:Hp; [|reflexivity].
  rewrite (upload_write_failed w r Hf Hc Hp) in H; discriminate.
Qed.

Lemma joinpath_inj (dir a b : pystr) : joinpath dir a = joinpath dir b -> a = b.
Proof.
  unfold joinpath; destruct (pystr_eqb dir (lit "/")); intros H.
  - exact (app_inv_head _ _ _ H).
  - apply app_inv_head in H; exact (app_inv_head _ _ _ H).
Qed.

Lemma upload_converting_off (w : world) (r : request) :
  str_falsy (filename (file r)) = false -> content (file r) <> [] ->
  persisted w r ->
  check_trim (trim_start r) (trim_end r) = ([], Ok tt) ->
  is_one (auto_upload_gcs r) = false -> is_one (auto_transcribe r) = false ->
  upload w r
  = ([EvWriteBytes (original_path_of w r) (content (file r));
      EvRun (encoder_argv w (original_path_of w r) (mp3_path_of w r)
               (trim_start r) (trim_end r))
            (spawn w (encoder_argv w (original_path_of w r)
                        (mp3_path_of w r) (trim_start r) (trim_end r)))],
     match snd (encode w (original_path_of w r) (mp3_path_of w r)
                  (trim_start r) (trim_end r)) with
     | Ok _ =>
         Ok [("original_filename"%string, JStr (original_name_of w r));
             ("mp3_filename"%string, JStr (mp3_name_of w r));
             ("original_url"%string,
              JStr (lit "/recordings/" ++ original_name_of w r));
             ("mp3_url"%string,
              JStr (lit "/recordings/" ++ mp3_name_of w r));
             ("auto_gcs_uploaded"%string, JBool false);
             ("auto_transcribed"%string, JBool false)]
     | Raise e => Raise e
     end).
Proof.
  intros Hf Hc Hp Hk Hg Ht.
  rewrite (upload_converting w r Hf Hc Hp Hk).
  rewrite (publish_and_respond_off w r Hg Ht).
  unfold bind; rewrite encode_trace.
  destruct (snd (encode w (original_path_of w r) (mp3_path_of w r)
                   (trim_start r) (trim_end r))); reflexivity.
Qed.

Lemma auto_upload_client_error_escapes (w : world) (n p : pystr)
    (e : pyexc) :
  gcs_import w = None -> gcs_client w = Some e ->
  issubclass (exc_cls e) ImportError = false ->
  issubclass (exc_cls e) OSError = false ->
  auto_upload w n p = ([EvGcsClient], Raise (Py e)).
Proof.
  intros Hi Hc H1 H2; unfold auto_upload, try_except, call, bind.
  rewrite Hi, Hc; simpl; rewrite H1, H2; reflexivity.
Qed.

Lemma auto_upload_client_oserror_absorbed (w : world) (n p : pystr)
    (e : pyexc) :
  gcs_import w = None -> gcs_client w = Some e ->
  issubclass (exc_cls e) ImportError = false ->
  issubclass (exc_cls e) OSError = true ->
  auto_upload w n p
  = ([EvGcsClient; EvStderr (lit "Auto GCS upload failed: " ++ exc_str e)],
     Ok false).
Proof.
  intros Hi Hc H1 H2; unfold auto_upload, try_except, call, bind.
  rewrite Hi, Hc; simpl; rewrite H1, H2; reflexivity.
Qed.

(** ** The claims *)

(** C1, as amended: a request whose [trim_end] is not above its
    [trim_start] never succeeds and never runs the encoder.  It is refused
    with status 400 and nothing written when the filename is missing or the
    payload is empty.  Otherwise the original is persisted first: when that
    write succeeds the request is refused with status 400 and the original
    stays on disk, so that a file is at [<stem>.mp3] exactly when the
    extension of the upload is itself [.mp3] once lowercased; when the
    write raises, its exception leaves the handler, which has completed no
    write and does nothing more. *)
Theorem upload_inverted_trim_refused (w : world) (r : request)
    (ts te : float) :
  trim_start r = Some ts -> trim_end r = Some te -> float_le te ts = true ->
  runs (fst (upload w r)) = []
  /\ (forall j, snd (upload w r) <> Ok j)
  /\ (str_falsy (filename (file r)) = true \/ content (file r) = [] ->
      bad_request (snd (upload w r)) /\ fst (upload w r) = [])
  /\ (str_falsy (filename (file r)) = false -> content (file r) <> [] ->
      persisted w r ->
      bad_request (snd (upload w r))
      /\ fst (upload w r)
         = [EvWriteBytes (original_path_of w r) (content (file r))]
      /\ (In (mp3_path_of w r) (writes (fst (upload w r)))
          <-> lower (str_or (path_suffix (fname_of r)) (lit ".bin"))
              = lit ".mp3"))
  /\ (forall e,
        str_falsy (filename (file r)) = false -> content (file r) <> [] ->
        write_outcome w (original_path_of w r) (content (file r)) = Some e ->
        upload w r = ([], Raise (Py e))).
Proof.
  intros Hts Hte Hle.
  destruct (check_trim_inverted ts te Hle) as [d Hd].
  rewrite <- Hts, <- Hte in Hd.
  destruct (str_falsy (filename (file r))) eqn:Hf.
  { rewrite (upload_missing_filename w r Hf).
    split; [reflexivity|split; [intros j; discriminate|]].
    split; [intros _; split; [eexists|]; reflexivity|].
    split; intros; discriminate. }
  destruct (list_eq_dec Byte.byte_eq_dec (content (file r)) []) as [Hc|Hc].
  { rewrite (upload_empty w r Hf Hc).
    split; [reflexivity|split; [intros j; discriminate|]].
    split; [intros _; split; [eexists|]; reflexivity|].
    split; [intros _ H; contradiction|intros e _ H; contradiction]. }
  destruct (write_outcome w (original_path_of w r) (content (file r)))
    as [e|] eqn:Hp.
  { rewrite (upload_write_failed w r Hf Hc Hp).
    split; [reflexivity|split; [intros j; discriminate|]].
    split; [intros [H|H]; [discriminate|contradiction]|].
    split; [intros _ _ H; discriminate|].
    intros e' _ _ H; injection H as <-; reflexivity. }
  rewrite (upload_trim_refused w r Hf Hc Hp Hd).
  split; [reflexivity|split; [intros j; discriminate|]].
  split; [intros [H|H]; [discriminate|contradiction]|].
  split; [|intros e _ _ H; discriminate].
  intros _ _ _; split; [exists d; reflexivity|split; [reflexivity|]].
  simpl; split.
  - intros [H|[]].
    unfold original_path_of, mp3_path_of in H; apply joinpath_inj in H.
    unfold original_name_of, mp3_name_of in H.
    exact (app_inv_head _ _ _ H).
  - intros H; left.
    unfold original_path_of, mp3_path_of, original_name_of, mp3_name_of.
    rewrite H; reflexivity.
Qed.

(** C3, as amended: with a filename, a payload and an original that is
    persisted, trim values [0 <= trim_start < trim_end] pass validation and
    the encoder is run on exactly the argument vector below, which has
    ["-ss" trim_start] and ["-t" trim_end - trim_start] between the input
    and the fixed output options. *)
Theorem upload_trim_window_argv (w : world) (r : request) (ts te : float) :
  str_falsy (filename (file r)) = false -> content (file r) <> [] ->
  persisted w r ->
  trim_start r = Some ts -> trim_end r = Some te ->
  float_le float_zero ts = true -> float_lt ts te = true ->
  let argv :=
    [_ffmpeg_bin w; lit "-y"; lit "-v"; lit "error"; lit "-i";
     original_path_of w r;
     lit "-ss"; float_repr ts; lit "-t"; float_repr (float_sub te ts);
     lit "-vn"; lit "-ac"; lit "1"; lit "-ar"; lit "44100";
     lit "-codec:a"; lit "libmp3lame"; lit "-qscale:a"; lit "3";
     joinpath (RECORDINGS_DIR w) (stem_of w r ++ lit ".mp3")] in
  ~ bad_request (snd (upload w r))
  /\ exists rest,
       fst (upload w r)
       = EvWriteBytes (original_path_of w r) (content (file r))
         :: EvRun argv (spawn w argv) :: rest.
Proof.
  intros Hf Hc Hp Hts Hte H0 Hlt argv.
  assert (Ht : check_trim (trim_start r) (trim_end r) = ([], Ok tt))
    by (rewrite Hts, Hte; exact (check_trim_window _ _ H0 Hlt)).
  split; [exact (upload_converting_not_bad_request w r Hf Hc Hp Ht)|].
  destruct (upload_converting_trace w r Hf Hc Hp Ht) as [rest Hrest].
  exists rest; rewrite Hrest.
  replace (encoder_argv w (original_path_of w r) (mp3_path_of w r)
             (trim_start r) (trim_end r)) with argv; [reflexivity|].
  rewrite Hts, Hte; unfold encoder_argv, ffmpeg_cmd.
  rewrite (float_sub_or_zero _ _ Hlt); reflexivity.
Qed.

(** C9, as amended: with a filename, a payload and an original that is
    persisted, a request that gives only [trim_end], with [trim_end >= 0]
    (zero included), passes validation and the encoder is run on exactly
    the argument vector below: ["-t"] carries [trim_end] itself and there
    is no ["-ss"]. *)
Theorem upload_trim_end_only_argv (w : world) (r : request) (te : float) :
  str_falsy (filename (file r)) = false -> content (file r) <> [] ->
  persisted w r ->
  trim_start r = None -> trim_end r = Some te ->
  float_le float_zero te = true ->
  let argv :=
    [_ffmpeg_bin w; lit "-y"; lit "-v"; lit "error"; lit "-i";
     original_path_of w r;
     lit "-t"; float_repr te;
     lit "-vn"; lit "-ac"; lit "1"; lit "-ar"; lit "44100";
     lit "-codec:a"; lit "libmp3lame"; lit "-qscale:a"; lit "3";
     joinpath (RECORDINGS_DIR w) (stem_of w r ++ lit ".mp3")] in
  ~ bad_request (snd (upload w r))
  /\ exists rest,
       fst (upload w r)
       = EvWriteBytes (original_path_of w r) (content (file r))
         :: EvRun argv (spawn w argv) :: rest.
Proof.
  intros Hf Hc Hp Hts Hte H0 argv.
  assert (Ht : check_trim (trim_start r) (trim_end r) = ([], Ok tt))
    by (rewrite Hts, Hte; exact (check_trim_end_only _ H0)).
  split; [exact (upload_converting_not_bad_request w r Hf Hc Hp Ht)|].
  destruct (upload_converting_trace w r Hf Hc Hp Ht) as [rest Hrest].
  exists rest; rewrite Hrest.
  replace (encoder_argv w (original_path_of w r) (mp3_path_of w r)
             (trim_start r) (trim_end r)) with argv; [reflexivity|].
  rewrite Hts, Hte; unfold encoder_argv, ffmpeg_cmd, float_or.
  rewrite float_sub_zero; reflexivity.
Qed.

(** C4, as amended: when the original has been persisted and the launch
    of the encoder raises [FileNotFoundError], the request fails with
    status 500 and a detail that starts with "ffmpeg not found: "; no
    process has run and the one file written is the original, so that
    nothing is created at [<stem>.mp3] unless the extension of the upload
    is itself [.mp3] once lowercased. *)
Theorem upload_encoder_missing (w : world) (r : request) (msg : pystr) :
  str_falsy (filename (file r)) = false -> content (file r) <> [] ->
  persisted w r ->
  check_trim (trim_start r) (trim_end r) = ([], Ok tt) ->
  spawn w (encoder_argv w (original_path_of w r) (mp3_path_of w r)
             (trim_start r) (trim_end r))
  = SpawnRaised (PyExc FileNotFoundError msg) ->
  upload w r
  = ([EvWriteBytes (original_path_of w r) (content (file r));
      EvRun (encoder_argv w (original_path_of w r) (mp3_path_of w r)
               (trim_start r) (trim_end r))
            (SpawnRaised (PyExc FileNotFoundError msg))],
     Raise (HTTPException 500 (lit "ffmpeg not found: " ++ msg)))
  /\ (lower (str_or (path_suffix (fname_of r)) (lit ".bin")) <> lit ".mp3" ->
      ~ In (mp3_path_of w r) (writes (fst (upload w r)))).
Proof.
  intros Hf Hc Hp Ht Hs.
  assert (Hu : upload w r
    = ([EvWriteBytes (original_path_of w r) (content (file r));
        EvRun (encoder_argv w (original_path_of w r) (mp3_path_of w r)
                 (trim_start r) (trim_end r))
              (SpawnRaised (PyExc FileNotFoundError msg))],
       Raise (HTTPException 500 (lit "ffmpeg not found: " ++ msg)))).
  { rewrite (upload_converting w r Hf Hc Hp Ht).
    rewrite (bind_raise _ _ (encode_not_found _ _ _ _ _ Hs)).
    rewrite encode_trace, Hs; reflexivity. }
  split; [exact Hu|].
  intros Hext; rewrite Hu; simpl.
  intros [H|[]]; apply Hext.
  unfold original_path_of, mp3_path_of in H.
  apply joinpath_inj in H.
  unfold original_name_of, mp3_name_of in H.
  exact (app_inv_head _ _ _ H).
Qed.

(** C5: an empty payload is refused with status 400 whatever the other
    fields are, and nothing is written or run. *)
Theorem upload_empty_refused (w : world) (r : request) :
  content (file r) = [] ->
  bad_request (snd (upload w r)) /\ fst (upload w r) = [].
Proof.
  intros Hc.
  destruct (str_falsy (filename (file r))) eqn:Hf.
  - rewrite (upload_missing_filename w r Hf); split; [eexists|]; reflexivity.
  - rewrite (upload_empty w r Hf Hc); split; [eexists|]; reflexivity.
Qed.

(** C7: when neither [auto_upload_gcs] nor [auto_transcribe] is the string
    "1", a response reports [false] for both outcomes, the storage client is
    never called, and the only command the request may run is the
    encoder. *)
Theorem upload_no_publish (w : world) (r : request) :
  auto_upload_gcs r <> Some (lit "1") ->
  auto_transcribe r <> Some (lit "1") ->
  (forall j, snd (upload w r) = Ok j ->
     field "auto_gcs_uploaded" j = Some (JBool false)
     /\ field "auto_transcribed" j = Some (JBool false))
  /\ gcs_calls (fst (upload w r)) = []
  /\ (runs (fst (upload w r)) = []
      \/ runs (fst (upload w r))
         = [encoder_argv w (original_path_of w r) (mp3_path_of w r)
              (trim_start r) (trim_end r)]).
Proof.
  intros Hg Ht.
  apply is_one_false in Hg; apply is_one_false in Ht.
  destruct (str_falsy (filename (file r))) eqn:Hf.
  { rewrite (upload_missing_filename w r Hf); simpl.
    split; [|split; auto].
    intros j H; discriminate. }
  destruct (list_eq_dec Byte.byte_eq_dec (content (file r)) []) as [Hc|Hc'].
  { rewrite (upload_empty w r Hf Hc); simpl.
    split; [|split; auto].
    intros j H; discriminate. }
  destruct (write_outcome w (original_path_of w r) (content (file r)))
    as [e|] eqn:Hp.
  { rewrite (upload_write_failed w r Hf Hc' Hp); simpl.
    split; [|split; auto].
    intros j H; discriminate. }
  destruct (check_trim_cases (trim_start r) (trim_end r)) as [Hk|[d Hk]].
  - rewrite (upload_converting_off w r Hf Hc' Hp Hk Hg Ht).
    split; [|split; [reflexivity|right; reflexivity]].
    intros j H; simpl snd in H.
    destruct (snd (encode w (original_path_of w r) (mp3_path_of w r)
                     (trim_start r) (trim_end r))) as [a|e];
      [|discriminate].
    injection H as <-; split; reflexivity.
  - rewrite (upload_trim_refused w r Hf Hc' Hp Hk); simpl.
    split; [|split; auto].
    intros j H; discriminate.
Qed.

(** C8: a successful upload answers with exactly the six fields
    [original_filename], [mp3_filename], [original_url], [mp3_url],
    [auto_gcs_uploaded] and [auto_transcribed]; both URLs are
    ["/recordings/"] followed by the filename, and both filenames start
    with one stem, the sanitized name base, ["_"] and the time rendered to
    the second, the MP3 one being that stem followed by [".mp3"]. *)
Theorem upload_response_shape (w : world) (r : request) (j : JSONResponse) :
  snd (upload w r) = Ok j ->
  exists (fname : pystr) (b1 b2 : bool),
    filename (file r) = Some fname
    /\ let base := _safe_stem (opt_str_or (name_base r)
                                 (str_or (path_stem fname) (lit "recording")))
       in
       let stem := base ++ lit "_"
                   ++ strftime (now w) (lit "%Y-%m-%d_%H-%M-%S") in
       let original_filename :=
         stem ++ lower (str_or (path_suffix fname) (lit ".bin")) in
       let mp3_filename := stem ++ lit ".mp3" in
       j = [("original_filename"%string, JStr original_filename);
            ("mp3_filename"%string, JStr mp3_filename);
            ("original_url"%string,
             JStr (lit "/recordings/" ++ original_filename));
            ("mp3_url"%string, JStr (lit "/recordings/" ++ mp3_filename));
            ("auto_gcs_uploaded"%string, JBool b1);
            ("auto_transcribed"%string, JBool b2)].
Proof.
  intros H; destruct (upload_ok_inv w r H) as [Hf [_ [b1 [b2 ->]]]].
  destruct (filename (file r)) as [fname|] eqn:E; [|discriminate].
  exists fname, b1, b2; split; [reflexivity|].
  unfold original_name_of, mp3_name_of, stem_of, _timestamp_name, fname_of.
  rewrite E; reflexivity.
Qed.

(** C10: once the filename and the payload are accepted and the original
    is persisted, it is written under the stem followed by the lowercased
    extension of the uploaded filename, or by [".bin"] when that filename
    has no extension; the base of the stem is the sanitized [name_base]
    when one is given and not empty, else the sanitized stem of the
    uploaded filename, else ["recording"]. *)
Theorem upload_original_name (w : world) (r : request) (fname : pystr) :
  filename (file r) = Some fname -> fname <> [] ->
  content (file r) <> [] ->
  persisted w r ->
  let base := match name_base r with
              | Some ((_ :: _) as nb) => _safe_stem nb
              | _ => match path_stem fname with
                     | (_ :: _) as st => _safe_stem st
                     | [] => lit "recording"
                     end
              end in
  let ext := match path_suffix fname with
             | (_ :: _) as sfx => lower sfx
             | [] => lit ".bin"
             end in
  let stem := _timestamp_name w base in
  (exists rest,
     fst (upload w r)
     = EvWriteBytes (joinpath (RECORDINGS_DIR w) (stem ++ ext))
         (content (file r)) :: rest)
  /\ (forall j, snd (upload w r) = Ok j ->
       field "original_filename" j = Some (JStr (stem ++ ext))).
Proof.
  intros Hn Hne Hc Hp base ext stem.
  destruct (filename_truthy r Hn Hne) as [Hf Hfn].
  assert (Hname : original_name_of w r = stem ++ ext).
  { unfold original_name_of, stem_of; rewrite Hfn.
    subst stem base ext; f_equal.
    - f_equal.
      destruct (name_base r) as [[|c nb]|]; simpl;
        destruct (path_stem fname); reflexivity.
    - destruct (path_suffix fname); reflexivity. }
  split.
  - rewrite (upload_accepted w r Hf Hc).
    match goal with |- context [fst (bind ?m ?f)] =>
      destruct (bind_trace_prefix m f) as [rest ->]
    end.
    unfold write_bytes; rewrite Hp.
    exists rest; unfold original_path_of; rewrite Hname; reflexivity.
  - intros j H; destruct (upload_ok_inv w r H) as [_ [_ [b1 [b2 ->]]]].
    rewrite Hname; reflexivity.
Qed.

End HandlerProps.

(** ** The model at concrete inputs *)

Example safe_stem_spaces :
  @_safe_stem demo_runtime (lit "__my take/01.v2__") = lit "my_take_01_v2".
Proof. reflexivity. Qed.

Example path_suffix_last_dot :
  path_suffix (lit "/tmp/in/demo.tar.GZ") = lit ".GZ"
  /\ path_stem (lit "/tmp/in/demo.tar.GZ") = lit "demo.tar".
Proof. split; reflexivity. Qed.

Example path_suffix_dotfile :
  path_suffix (lit ".bashrc") = [] /\ path_stem (lit ".bashrc") = lit ".bashrc".
Proof. split; reflexivity. Qed.

Example path_stem_root : path_stem (lit "/") = [].
Proof. reflexivity. Qed.

Example float_three_minus_one : float_sub f_three f_one = f_two.
Proof. reflexivity. Qed.

Example float_nan_is_truthy :
  float_or (Some S754_nan) float_zero = S754_nan
  /\ float_or (Some (S754_zero true)) float_zero = float_zero.
Proof. split; reflexivity. Qed.

Example upload_session_response :
  snd (upload demo_world req_session)
  = Ok [("original_filename"%string,
         JStr (lit "session_2025-01-04_10-00-00.wav"));
        ("mp3_filename"%string,
         JStr (lit "session_2025-01-04_10-00-00.mp3"));
        ("original_url"%string,
         JStr (lit "/recordings/session_2025-01-04_10-00-00.wav"));
        ("mp3_url"%string,
         JStr (lit "/recordings/session_2025-01-04_10-00-00.mp3"));
        ("auto_gcs_uploaded"%string, JBool false);
        ("auto_transcribed"%string, JBool false)].
Proof. reflexivity. Qed.

Example upload_write_raises :
  upload world_name_max req_long_name_bad_trim
  = ([], Raise (Py (PyExc OSError
                      (lit "[Errno 36] File name too long: '"
                       ++ original_path_of world_name_max
                            req_long_name_bad_trim
                       ++ lit "'"))))
  /\ original_name_of world_name_max req_long_name_bad_trim
     = repeat 97%N 300 ++ lit "_2025-01-04_10-00-00.wav"
  /\ fst (upload world_name_max req_bad_trim)
     = [EvWriteBytes (lit "/srv/app/recordings/demo_2025-01-04_10-00-00.wav")
          [Byte.x52; Byte.x49]].
Proof. repeat split; vm_compute; reflexivity. Qed.

Example upload_mp3_inverted_trim :
  upload demo_world req_mp3_bad_trim
  = ([EvWriteBytes (lit "/srv/app/recordings/take_2025-01-04_10-00-00.mp3")
        [Byte.x49; Byte.x44; Byte.x33]],
     Raise (HTTPException 400 (lit "trim_end must be > trim_start")))
  /\ mp3_path_of demo_world req_mp3_bad_trim
     = lit "/srv/app/recordings/take_2025-01-04_10-00-00.mp3".
Proof. split; reflexivity. Qed.

(** ** The claims at concrete requests *)

Lemma upload_inverted_trim_refused_witness :
  bad_request (snd (upload demo_world req_bad_trim))
  /\ runs (fst (upload demo_world req_bad_trim)) = []
  /\ fst (upload demo_world req_bad_trim)
     = [EvWriteBytes (lit "/srv/app/recordings/demo_2025-01-04_10-00-00.wav")
          [Byte.x52; Byte.x49]].
Proof.
  destruct (upload_inverted_trim_refused demo_world req_bad_trim
              (ts:=f_two) (te:=f_one) eq_refl eq_refl eq_refl)
    as [H1 [_ [_ [H4 _]]]].
  destruct H4 as [Hb [Ht _]]; [reflexivity|discriminate|reflexivity|].
  split; [exact Hb|split; [exact H1|exact Ht]].
Defined.

(** C1 as stated fails: with [trim_start=2.0] and [trim_end=1.0] the
    request is refused, but the original is on disk by then. *)
Lemma upload_inverted_trim_writes_original :
  trim_start req_bad_trim = Some f_two
  /\ trim_end req_bad_trim = Some f_one
  /\ float_le f_one f_two = true
  /\ writes (fst (upload demo_world req_bad_trim))
     = [lit "/srv/app/recordings/demo_2025-01-04_10-00-00.wav"]
  /\ writes (fst (upload demo_world req_bad_trim)) <> [].
Proof. repeat split; discriminate. Qed.

(** C2, the code at the failing input: with [auto_upload_gcs=1] and no
    application credentials, [gcs.Client()] raises an exception that is
    neither an [ImportError] nor an [OSError]; no clause catches it, nothing
    is logged and the request ends with that exception instead of a
    response. *)
Theorem upload_gcs_credentials_error_escapes :
  is_one (auto_upload_gcs req_auto_gcs) = true
  /\ snd (upload world_no_credentials req_auto_gcs)
     = Raise (Py (PyExc (OtherException
                           (lit "google.auth.exceptions.DefaultCredentialsError"))
                        (lit "Your default credentials were not found.")))
  /\ stderr_lines (fst (upload world_no_credentials req_auto_gcs)) = []
  /\ gcs_calls (fst (upload world_no_credentials req_auto_gcs))
     = [EvGcsClient].
Proof. repeat split. Qed.

Lemma upload_trim_window_argv_witness :
  ~ bad_request (snd (upload demo_world req_session))
  /\ exists rest,
       fst (upload demo_world req_session)
       = EvWriteBytes
           (lit "/srv/app/recordings/session_2025-01-04_10-00-00.wav")
           [Byte.x52; Byte.x49]
         :: EvRun [lit "ffmpeg"; lit "-y"; lit "-v"; lit "error"; lit "-i";
                   lit "/srv/app/recordings/session_2025-01-04_10-00-00.wav";
                   lit "-ss"; lit "1.0"; lit "-t"; lit "2.0";
                   lit "-vn"; lit "-ac"; lit "1"; lit "-ar"; lit "44100";
                   lit "-codec:a"; lit "libmp3lame"; lit "-qscale:a"; lit "3";
                   lit "/srv/app/recordings/session_2025-01-04_10-00-00.mp3"]
                  (Exited 0 [] [])
         :: rest.
Proof.
  apply (upload_trim_window_argv demo_world req_session (ts:=f_one)
           (te:=f_three));
    [reflexivity|discriminate|reflexivity|reflexivity|reflexivity
    |reflexivity|reflexivity].
Defined.

(** C3 as stated fails: valid trim values do not make a request pass
    validation; with [trim_start=1.0], [trim_end=3.0] and an empty payload
    the request is refused and no command is built or run. *)
Lemma upload_trim_window_empty_payload :
  trim_start req_empty = Some f_one
  /\ trim_end req_empty = Some f_three
  /\ float_le float_zero f_one = true
  /\ float_lt f_one f_three = true
  /\ upload demo_world req_empty
     = ([], Raise (HTTPException 400 (lit "empty upload")))
  /\ runs (fst (upload demo_world req_empty)) = [].
Proof. repeat split. Qed.

Lemma upload_encoder_missing_witness :
  upload world_no_ffmpeg req_session
  = ([EvWriteBytes
        (lit "/srv/app/recordings/session_2025-01-04_10-00-00.wav")
        [Byte.x52; Byte.x49];
      EvRun [lit "ffmpeg"; lit "-y"; lit "-v"; lit "error"; lit "-i";
             lit "/srv/app/recordings/session_2025-01-04_10-00-00.wav";
             lit "-ss"; lit "1.0"; lit "-t"; lit "2.0";
             lit "-vn"; lit "-ac"; lit "1"; lit "-ar"; lit "44100";
             lit "-codec:a"; lit "libmp3lame"; lit "-qscale:a"; lit "3";
             lit "/srv/app/recordings/session_2025-01-04_10-00-00.mp3"]
            (SpawnRaised
               (PyExc FileNotFoundError
                  (lit "[Errno 2] No such file or directory: 'ffmpeg'")))],
     Raise (HTTPException 500
              (lit "ffmpeg not found: [Errno 2] No such file or directory: 'ffmpeg'")))
  /\ ~ In (lit "/srv/app/recordings/session_2025-01-04_10-00-00.mp3")
         (writes (fst (upload world_no_ffmpeg req_session))).
Proof.
  destruct (upload_encoder_missing world_no_ffmpeg req_session
              (msg:=lit "[Errno 2] No such file or directory: 'ffmpeg'"))
    as [H1 H2];
    [reflexivity|discriminate|reflexivity|reflexivity|reflexivity|].
  split; [exact H1|].
  apply H2; discriminate.
Defined.

(** C4 as stated fails: an upload called [take.MP3] is written to
    [take_<timestamp>.mp3], the very path of the MP3, before the missing
    encoder is noticed. *)
Lemma upload_encoder_missing_mp3_upload :
  snd (upload world_no_ffmpeg req_mp3)
  = Raise (HTTPException 500
             (lit "ffmpeg not found: [Errno 2] No such file or directory: 'ffmpeg'"))
  /\ mp3_path_of world_no_ffmpeg req_mp3
     = lit "/srv/app/recordings/take_2025-01-04_10-00-00.mp3"
  /\ In (mp3_path_of world_no_ffmpeg req_mp3)
        (writes (fst (upload world_no_ffmpeg req_mp3))).
Proof. repeat split; left; reflexivity. Qed.

Lemma upload_empty_refused_witness :
  bad_request (snd (upload demo_world req_empty))
  /\ fst (upload demo_world req_empty) = [].
Proof. apply (upload_empty_refused demo_world req_empty); reflexivity. Defined.

Lemma upload_no_publish_witness :
  (forall j, snd (upload demo_world req_session) = Ok j ->
     field "auto_gcs_uploaded" j = Some (JBool false)
     /\ field "auto_transcribed" j = Some (JBool false))
  /\ gcs_calls (fst (upload demo_world req_session)) = []
  /\ List.length (runs (fst (upload demo_world req_session))) <= 1.
Proof.
  destruct (upload_no_publish demo_world req_session) as [H1 [H2 H3]];
    [discriminate|discriminate|].
  split; [exact H1|split; [exact H2|]].
  destruct H3 as [-> | ->]; simpl; lia.
Defined.

Lemma upload_response_shape_witness :
  exists j,
    snd (upload demo_world req_session) = Ok j
    /\ List.map fst j
       = ["original_filename"; "mp3_filename"; "original_url"; "mp3_url";
          "auto_gcs_uploaded"; "auto_transcribed"]%string
    /\ field "mp3_filename" j
       = Some (JStr (lit "session_2025-01-04_10-00-00.mp3"))
    /\ field "mp3_url" j
       = Some (JStr (lit "/recordings/session_2025-01-04_10-00-00.mp3")).
Proof.
  eexists; split; [reflexivity|].
  destruct (upload_response_shape demo_world req_session eq_refl)
    as [fname [b1 [b2 [Hn Hj]]]].
  injection Hn as <-.
  cbv zeta in Hj; rewrite Hj.
  repeat split.
Defined.

Lemma upload_trim_end_only_argv_witness :
  ~ bad_request (snd (upload demo_world req_trim_end_zero))
  /\ exists rest,
       fst (upload demo_world req_trim_end_zero)
       = EvWriteBytes
           (lit "/srv/app/recordings/demo_2025-01-04_10-00-00.wav")
           [Byte.x52; Byte.x49]
         :: EvRun [lit "ffmpeg"; lit "-y"; lit "-v"; lit "error"; lit "-i";
                   lit "/srv/app/recordings/demo_2025-01-04_10-00-00.wav";
                   lit "-t"; lit "0.0";
                   lit "-vn"; lit "-ac"; lit "1"; lit "-ar"; lit "44100";
                   lit "-codec:a"; lit "libmp3lame"; lit "-qscale:a"; lit "3";
                   lit "/srv/app/recordings/demo_2025-01-04_10-00-00.mp3"]
                  (Exited 0 [] [])
         :: rest.
Proof.
  apply (upload_trim_end_only_argv demo_world req_trim_end_zero
           (te:=float_zero));
    [reflexivity|discriminate|reflexivity|reflexivity|reflexivity
    |reflexivity].
Defined.

(** C9 as stated fails: a lone [trim_end >= 0] does not make a request
    pass validation; with [trim_end=0.0] and an empty payload the request
    is refused and no command is built or run. *)
Lemma upload_trim_end_only_empty_payload :
  trim_start req_empty_trim_end = None
  /\ trim_end req_empty_trim_end = Some float_zero
  /\ float_le float_zero float_zero = true
  /\ upload demo_world req_empty_trim_end
     = ([], Raise (HTTPException 400 (lit "empty upload")))
  /\ runs (fst (upload demo_world req_empty_trim_end)) = [].
Proof. repeat split. Qed.

Lemma upload_original_name_witness :
  (exists rest,
     fst (upload demo_world req_mp3)
     = EvWriteBytes (lit "/srv/app/recordings/take_2025-01-04_10-00-00.mp3")
         [Byte.x49; Byte.x44; Byte.x33] :: rest)
  /\ (forall j, snd (upload demo_world req_mp3) = Ok j ->
       field "original_filename" j
       = Some (JStr (lit "take_2025-01-04_10-00-00.mp3"))).
Proof.
  apply (upload_original_name demo_world req_mp3 (fname:=lit "take.MP3"));
    [reflexivity|discriminate|discriminate|reflexivity].
Defined.

(** * Further properties of the handler *)

Section PublishSteps.

Context {rt : Runtime}.

Lemma writes_app (a b : list event) : writes (a ++ b) = writes a ++ writes b.
Proof. apply flat_map_app. Qed.

Lemma runs_app (a b : list event) : runs (a ++ b) = runs a ++ runs b.
Proof. apply flat_map_app. Qed.

Lemma stderr_lines_app (a b : list event) :
  stderr_lines (a ++ b) = stderr_lines a ++ stderr_lines b.
Proof. apply flat_map_app. Qed.

Lemma gcs_calls_app (a b : list event) :
  gcs_calls (a ++ b) = gcs_calls a ++ gcs_calls b.
Proof. apply filter_app. Qed.

Lemma gcs_uploads_app (a b : list event) :
  gcs_uploads (a ++ b) = gcs_uploads a ++ gcs_uploads b.
Proof. apply filter_app. Qed.

Lemma encode_ok_inv (w : world) (op mp : pystr) (ts te : option float)
    (a : Z * pystr) :
  snd (encode w op mp ts te) = Ok a ->
  exists out err, spawn w (encoder_argv w op mp ts te) = Exited 0 out err.
Proof.
  unfold encode, try_except, subprocess_run, bind.
  destruct (spawn w _) as [rc out err|[c m]]; simpl.
  - destruct (rc =? 0)%Z eqn:E; simpl; [|discriminate].
    apply Z.eqb_eq in E; subst rc; eauto.
  - destruct c; simpl; discriminate.
Qed.

Lemma encode_exited_zero (w : world) (op mp : pystr) (ts te : option float)
    (out err : pystr) :
  spawn w (encoder_argv w op mp ts te) = Exited 0 out err ->
  encode w op mp ts te
  = ([EvRun (encoder_argv w op mp ts te) (Exited 0 out err)], Ok (0%Z, err)).
Proof.
  intros H; unfold encode, try_except, subprocess_run, bind.
  rewrite H; reflexivity.
Qed.

Lemma encode_exited_nonzero (w : world) (op mp : pystr)
    (ts te : option float) (rc : Z) (out err : pystr) :
  spawn w (encoder_argv w op mp ts te) = Exited rc out err -> rc <> 0%Z ->
  encode w op mp ts te
  = ([EvRun (encoder_argv w op mp ts te) (Exited rc out err)],
     Raise (HTTPException 500
              (lit "ffmpeg failed: "
               ++ called_process_error_str (encoder_argv w op mp ts te) rc))).
Proof.
  intros H Hrc; unfold encode, try_except, subprocess_run, bind.
  rewrite H; apply Z.eqb_neq in Hrc; simpl; rewrite Hrc; reflexivity.
Qed.

Lemma auto_transcribe_exited (w : world) (p : pystr) (rc : Z)
    (out err : pystr) :
  spawn w [sys_executable w; joinpath (base_dir w) (lit "gc_stt.py"); p]
  = Exited rc out err ->
  auto_transcribe_run w p
  = (EvRun [sys_executable w; joinpath (base_dir w) (lit "gc_stt.py"); p]
       (Exited rc out err)
     :: (if (rc =? 0)%Z then []
         else [EvStderr (lit "Auto transcription failed: " ++ err)]),
     Ok (rc =? 0)%Z).
Proof.
  intros H; unfold auto_transcribe_run, try_except, subprocess_run, bind.
  rewrite H; simpl; destruct (rc =? 0)%Z; reflexivity.
Qed.





Lemma auto_upload_trace_shape (w : world) (n p : pystr) :
  writes (fst (auto_upload w n p)) = []
  /\ runs (fst (auto_upload w n p)) = []
  /\ List.length (gcs_uploads (fst (auto_upload w n p))) <= 1.
Proof.
  unfold auto_upload, try_except, call, bind.
  destruct (gcs_import w) as [e|]; simpl.
  { destruct (issubclass (exc_cls e) ImportError); simpl; [auto|].
    destruct (issubclass (exc_cls e) OSError); simpl; auto. }
  destruct (gcs_client w) as [e|]; simpl.
  { destruct (issubclass (exc_cls e) ImportError); simpl; [auto|].
    destruct (issubclass (exc_cls e) OSError); simpl; auto. }
  destruct (getenv w _) as [[|c b]|]; simpl; auto.
  destruct (gcs_upload w _ _ _) as [e|]; simpl; auto.
  destruct (issubclass (exc_cls e) ImportError); simpl; [auto|].
  destruct (issubclass (exc_cls e) OSError); simpl; auto.
Qed.

Lemma auto_transcribe_trace_shape (w : world) (p : pystr) :
  writes (fst (auto_transcribe_run w p)) = []
  /\ runs (fst (auto_transcribe_run w p))
     = [[sys_executable w; joinpath (base_dir w) (lit "gc_stt.py"); p]]
  /\ gcs_calls (fst (auto_transcribe_run w p)) = []
  /\ gcs_uploads (fst (auto_transcribe_run w p)) = [].
Proof.
  unfold auto_transcribe_run, try_except, subprocess_run, bind.
  destruct (spawn w _) as [rc out err|e]; simpl.
  - destruct (rc =? 0)%Z; simpl; auto.
  - destruct (issubclass (exc_cls e) OSError); simpl; [auto|].
    destruct (issubclass (exc_cls e) SubprocessError); simpl; auto.
Qed.

Lemma upload_encoded (w : world) (r : request) (out err : pystr) :
  str_falsy (filename (file r)) = false -> content (file r) <> [] ->
  persisted w r ->
  check_trim (trim_start r) (trim_end r) = ([], Ok tt) ->
  spawn w (encoder_argv_of w r) = Exited 0 out err ->
  upload w r
  = (EvWriteBytes (original_path_of w r) (content (file r))
       :: EvRun (encoder_argv_of w r) (Exited 0 out err)
       :: fst (publish_and_respond w r),
     snd (publish_and_respond w r)).
Proof.
  intros Hf Hc Hp Hk Hs; rewrite (upload_converting w r Hf Hc Hp Hk).
  unfold encoder_argv_of in *.
  rewrite (bind_ok _ _ (a:=(0%Z, err)));
    rewrite (encode_exited_zero _ _ _ _ _ Hs); reflexivity.
Qed.

Lemma bind_fst {A B} (m : M A) (f : A -> M B) :
  fst (bind m f)
  = fst m ++ match snd m with Ok a => fst (f a) | Raise _ => [] end.
Proof.
  unfold bind; destruct (snd m); simpl; [|rewrite app_nil_r]; reflexivity.
Qed.

Lemma publish_and_respond_ok (w : world) (r : request)
    (t1 t2 : list event) (b1 b2 : bool) :
  (if is_one (auto_upload_gcs r)
   then auto_upload w (mp3_name_of w r) (mp3_path_of w r)
   else ret false) = (t1, Ok b1) ->
  (if is_one (auto_transcribe r)
   then auto_transcribe_run w (mp3_path_of w r)
   else ret false) = (t2, Ok b2) ->
  publish_and_respond w r = (t1 ++ t2, Ok (response_of w r b1 b2)).
Proof.
  intros H1 H2; unfold publish_and_respond, bind.
  rewrite H1; simpl; rewrite H2; simpl; rewrite app_nil_r; reflexivity.
Qed.

Lemma publish_trace_shape (w : world) (r : request) :
  writes (fst (publish_and_respond w r)) = []
  /\ (runs (fst (publish_and_respond w r)) = []
      \/ runs (fst (publish_and_respond w r)) = [transcriber_argv w r])
  /\ List.length (gcs_uploads (fst (publish_and_respond w r))) <= 1.
Proof.
  unfold publish_and_respond.
  set (A := if is_one (auto_upload_gcs r)
            then auto_upload w (mp3_name_of w r) (mp3_path_of w r)
            else ret false).
  set (B := if is_one (auto_transcribe r)
            then auto_transcribe_run w (mp3_path_of w r)
            else ret false).
  assert (HA : writes (fst A) = [] /\ runs (fst A) = []
               /\ List.length (gcs_uploads (fst A)) <= 1).
  { subst A; destruct (is_one (auto_upload_gcs r));
      [apply auto_upload_trace_shape|simpl; auto]. }
  assert (HB : writes (fst B) = []
               /\ (runs (fst B) = [] \/ runs (fst B) = [transcriber_argv w r])
               /\ gcs_uploads (fst B) = []).
  { subst B; destruct (is_one (auto_transcribe r)).
    - destruct (auto_transcribe_trace_shape w (mp3_path_of w r))
        as [H1 [H2 [_ H4]]]; auto.
    - simpl; auto. }
  destruct HA as [A1 [A2 A3]], HB as [B1 [B2 B3]].
  rewrite bind_fst, writes_app, runs_app, gcs_uploads_app, A1, A2.
  destruct (snd A) as [a|e]; simpl.
  - rewrite bind_fst, writes_app, runs_app, gcs_uploads_app, B1, B3.
    destruct (snd B) as [b|e]; simpl; rewrite !app_nil_r;
      repeat split; auto; lia.
  - rewrite app_nil_r; repeat split; auto.
Qed.

Lemma publish_gcs_calls_inv (w : world) (r : request) :
  gcs_calls (fst (publish_and_respond w r)) <> [] ->
  is_one (auto_upload_gcs r) = true.
Proof.
  unfold publish_and_respond; rewrite bind_fst, gcs_calls_app.
  destruct (is_one (auto_upload_gcs r)); [reflexivity|].
  simpl; rewrite bind_fst, gcs_calls_app.
  destruct (is_one (auto_transcribe r)).
  - destruct (auto_transcribe_trace_shape w (mp3_path_of w r))
      as [_ [_ [H _]]]; rewrite H.
    destruct (snd (auto_transcribe_run w (mp3_path_of w r))); simpl;
      intros C; contradiction C; reflexivity.
  - simpl; intros C; contradiction C; reflexivity.
Qed.

Lemma check_trim_refused_iff (ts te : option float) :
  (exists detail, check_trim ts te = ([], Raise (HTTPException 400 detail)))
  <-> ((exists a, ts = Some a /\ float_lt a float_zero = true)
       \/ (exists b, te = Some b /\ float_lt b float_zero = true)
       \/ (exists a b, ts = Some a /\ te = Some b /\ float_le b a = true)).
Proof.
  unfold check_trim, raise_if; split.
  - destruct ts as [a|], te as [b|];
      repeat match goal with
             | |- context [if float_lt ?x ?y then _ else _] =>
                 destruct (float_lt x y) eqn:?
             | |- context [if float_le ?x ?y then _ else _] =>
                 destruct (float_le x y) eqn:?
             end;
      intros [d Hd]; try discriminate; eauto 8.
  - intros [[a [-> Ha]]|[[b [-> Hb]]|[a [b [-> [-> Hab]]]]]].
    + rewrite Ha; eexists; reflexivity.
    + destruct ts as [a|].
      * destruct (float_lt a float_zero); [eexists; reflexivity|].
        rewrite Hb; eexists; reflexivity.
      * rewrite Hb; eexists; reflexivity.
    + destruct (float_lt a float_zero); [eexists; reflexivity|].
      destruct (float_lt b float_zero); [eexists; reflexivity|].
      rewrite Hab; eexists; reflexivity.
Qed.

(** ** Failure of the conversion *)

(** X1: when the encoder exits with a status other than 0, the request
    fails with status 500 and a detail that starts with "ffmpeg failed: ";
    whatever the two flags are, neither publish step is started, and the
    original stays on disk. *)
Theorem upload_encoder_failed (w : world) (r : request) (rc : Z)
    (out err : pystr) :
  str_falsy (filename (file r)) = false -> content (file r) <> [] ->
  persisted w r ->
  check_trim (trim_start r) (trim_end r) = ([], Ok tt) ->
  spawn w (encoder_argv_of w r) = Exited rc out err -> rc <> 0%Z ->
  upload w r
  = ([EvWriteBytes (original_path_of w r) (content (file r));
      EvRun (encoder_argv_of w r) (Exited rc out err)],
     Raise (HTTPException 500
              (lit "ffmpeg failed: "
               ++ called_process_error_str (encoder_argv_of w r) rc))).
Proof.
  intros Hf Hc Hp Hk Hs Hrc; rewrite (upload_converting w r Hf Hc Hp Hk).
  unfold encoder_argv_of in *.
  pose proof (encode_exited_nonzero _ _ _ _ _ Hs Hrc) as He.
  rewrite (bind_raise _ _ (f_equal snd He)), He; reflexivity.
Qed.

(** ** Validation *)

(** X2: the request is refused as a bad request exactly when the filename
    is missing, the payload is empty, or the original has been persisted
    and a trim value is below zero or both trim values are given with
    [trim_end <= trim_start]; a write that raises and everything that
    happens after the guards never answer 400. *)
Theorem upload_bad_request_iff (w : world) (r : request) :
  bad_request (snd (upload w r))
  <-> (str_falsy (filename (file r)) = true
       \/ content (file r) = []
       \/ (persisted w r
           /\ ((exists ts, trim_start r = Some ts
                           /\ float_lt ts float_zero = true)
               \/ (exists te, trim_end r = Some te
                              /\ float_lt te float_zero = true)
               \/ (exists ts te, trim_start r = Some ts
                                 /\ trim_end r = Some te
                                 /\ float_le te ts = true)))).
Proof.
  destruct (str_falsy (filename (file r))) eqn:Hf.
  { rewrite (upload_missing_filename w r Hf); split; [auto|].
    intros _; eexists; reflexivity. }
  destruct (list_eq_dec Byte.byte_eq_dec (content (file r)) []) as [Hc|Hc].
  { rewrite (upload_empty w r Hf Hc); split; [auto|].
    intros _; eexists; reflexivity. }
  pose proof (check_trim_refused_iff (trim_start r) (trim_end r)) as Hiff.
  destruct (write_outcome w (original_path_of w r) (content (file r)))
    as [e|] eqn:Hp.
  { rewrite (upload_write_failed w r Hf Hc Hp); split.
    - intros [d Hd]; discriminate.
    - intros [H|[H|[H _]]]; [discriminate|contradiction|discriminate]. }
  destruct (check_trim_cases (trim_start r) (trim_end r)) as [Hk|[d Hk]].
  - split.
    + intros H.
      contradiction (upload_converting_not_bad_request w r Hf Hc Hp Hk H).
    + intros [H|[H|[_ H]]]; [discriminate|contradiction|].
      apply Hiff in H; destruct H as [d Hd]; rewrite Hk in Hd; discriminate.
  - rewrite (upload_trim_refused w r Hf Hc Hp Hk); split.
    + intros _; right; right; split; [reflexivity|]; apply Hiff; eauto.
    + intros _; exists d; reflexivity.
Qed.

(** X3: with a filename, a payload and an original that is persisted, a
    negative [trim_start] decides the message: the detail is
    "trim_start must be >= 0" whatever [trim_end] is, and the request stops
    after having written the original. *)
Theorem upload_negative_trim_start_detail (w : world) (r : request)
    (ts : float) :
  str_falsy (filename (file r)) = false -> content (file r) <> [] ->
  persisted w r ->
  trim_start r = Some ts -> float_lt ts float_zero = true ->
  upload w r
  = ([EvWriteBytes (original_path_of w r) (content (file r))],
     Raise (HTTPException 400 (lit "trim_start must be >= 0"))).
Proof.
  intros Hf Hc Hp Hts Hneg; apply (upload_trim_refused w r Hf Hc Hp).
  rewrite Hts; unfold check_trim, raise_if; rewrite Hneg; reflexivity.
Qed.

(** X4: a [trim_end] that is NaN is not refused: no guard compares true
    on it, so with a filename, a payload, an original that is persisted and
    a [trim_start] absent or not below zero, the encoder is run, with
    ["-t"] followed by the rendering of NaN. *)
Theorem upload_nan_trim_end_accepted (w : world) (r : request) :
  str_falsy (filename (file r)) = false -> content (file r) <> [] ->
  persisted w r ->
  trim_end r = Some S754_nan ->
  (forall ts, trim_start r = Some ts -> float_lt ts float_zero = false) ->
  ~ bad_request (snd (upload w r))
  /\ exists argv pre post,
       hd_error (runs (fst (upload w r))) = Some argv
       /\ argv = pre ++ [lit "-t"; float_repr S754_nan] ++ post.
Proof.
  intros Hf Hc Hp Hte Hts.
  assert (Hk : check_trim (trim_start r) (trim_end r) = ([], Ok tt)).
  { rewrite Hte; unfold check_trim, raise_if.
    destruct (trim_start r) as [ts|]; [rewrite (Hts ts eq_refl)|];
      reflexivity. }
  split; [exact (upload_converting_not_bad_request w r Hf Hc Hp Hk)|].
  destruct (upload_converting_trace w r Hf Hc Hp Hk) as [rest Hrest].
  exists (encoder_argv_of w r).
  assert (Hnan : forall x, float_sub S754_nan x = S754_nan)
    by (intros x; destruct x; reflexivity).
  unfold encoder_argv_of; rewrite Hrest, Hte.
  unfold encoder_argv, ffmpeg_cmd; rewrite Hnan.
  destruct (trim_start r) as [ts|].
  - exists [_ffmpeg_bin w; lit "-y"; lit "-v"; lit "error"; lit "-i";
            original_path_of w r; lit "-ss"; float_repr ts].
    eexists; split; reflexivity.
  - exists [_ffmpeg_bin w; lit "-y"; lit "-v"; lit "error"; lit "-i";
            original_path_of w r].
    eexists; split; reflexivity.
Qed.

(** ** The optional steps *)

Lemma is_one_true (flag : option pystr) :
  flag = Some (lit "1") -> is_one flag = true.
Proof. intros ->; reflexivity. Qed.

(** X5: with [auto_transcribe=1] and a conversion that succeeded, the
    request succeeds whatever the exit status of the transcription script
    is; [auto_transcribed] is true exactly when that status is 0, and a
    status other than 0 is logged with the captured standard error. *)
Theorem upload_transcription_mirrors_exit (w : world) (r : request)
    (o e : pystr) (rc : Z) (out err : pystr) :
  str_falsy (filename (file r)) = false -> content (file r) <> [] ->
  persisted w r ->
  check_trim (trim_start r) (trim_end r) = ([], Ok tt) ->
  spawn w (encoder_argv_of w r) = Exited 0 o e ->
  auto_upload_gcs r <> Some (lit "1") ->
  auto_transcribe r = Some (lit "1") ->
  spawn w (transcriber_argv w r) = Exited rc out err ->
  upload w r
  = (EvWriteBytes (original_path_of w r) (content (file r))
     :: EvRun (encoder_argv_of w r) (Exited 0 o e)
     :: EvRun (transcriber_argv w r) (Exited rc out err)
     :: (if (rc =? 0)%Z then []
         else [EvStderr (lit "Auto transcription failed: " ++ err)]),
     Ok (response_of w r false (rc =? 0)%Z)).
Proof.
  intros Hf Hc Hp Hk He Hg Ht Hs.
  rewrite (upload_encoded w r Hf Hc Hp Hk He).
  rewrite (publish_and_respond_ok w r (t1:=[]) (b1:=false)
             (t2:=EvRun (transcriber_argv w r) (Exited rc out err)
                  :: (if (rc =? 0)%Z then []
                      else [EvStderr (lit "Auto transcription failed: "
                                      ++ err)]))
             (b2:=(rc =? 0)%Z)).
  - reflexivity.
  - rewrite (is_one_false Hg); reflexivity.
  - rewrite (is_one_true Ht); exact (auto_transcribe_exited _ _ Hs).
Qed.





(** ** What a request can do at most *)

Lemma upload_trace_cases (w : world) (r : request) :
  (fst (upload w r) = [] /\ forall a, snd (upload w r) <> Ok a)
  \/ (fst (upload w r)
      = [EvWriteBytes (original_path_of w r) (content (file r))]
      /\ forall a, snd (upload w r) <> Ok a)
  \/ ((forall a, snd (upload w r) <> Ok a)
      /\ fst (upload w r)
         = [EvWriteBytes (original_path_of w r) (content (file r));
            EvRun (encoder_argv_of w r) (spawn w (encoder_argv_of w r))])
  \/ (exists out err,
        spawn w (encoder_argv_of w r) = Exited 0 out err
        /\ upload w r
           = (EvWriteBytes (original_path_of w r) (content (file r))
              :: EvRun (encoder_argv_of w r) (Exited 0 out err)
              :: fst (publish_and_respond w r),
              snd (publish_and_respond w r))).
Proof.
  destruct (str_falsy (filename (file r))) eqn:Hf;
    [left; rewrite (upload_missing_filename w r Hf); split;
     [reflexivity|intros a; discriminate]|].
  destruct (list_eq_dec Byte.byte_eq_dec (content (file r)) []) as [Hc|Hc];
    [left; rewrite (upload_empty w r Hf Hc); split;
     [reflexivity|intros a; discriminate]|].
  destruct (write_outcome w (original_path_of w r) (content (file r)))
    as [e|] eqn:Hp;
    [left; rewrite (upload_write_failed w r Hf Hc Hp); split;
     [reflexivity|intros a; discriminate]|].
  destruct (check_trim_cases (trim_start r) (trim_end r)) as [Hk|[d Hk]];
    [|right; left; rewrite (upload_trim_refused w r Hf Hc Hp Hk); split;
      [reflexivity|intros a; discriminate]].
  right; right.
  destruct (snd (encode w (original_path_of w r) (mp3_path_of w r)
                   (trim_start r) (trim_end r))) as [a|e] eqn:He.
  - right; destruct (encode_ok_inv _ _ _ _ _ He) as [out [err Hs]].
    exists out, err; split; [exact Hs|].
    exact (upload_encoded w r Hf Hc Hp Hk Hs).
  - left; rewrite (upload_converting w r Hf Hc Hp Hk).
    rewrite (bind_raise _ _ He), encode_trace; simpl.
    repeat split; discriminate.
Qed.

(** X10: whatever the request and the world, the handler itself writes at
    most one file, the original; it runs at most two commands, the encoder
    first and then the transcription script; and it hands at most one
    object to the storage client. *)
Theorem upload_resource_bounds (w : world) (r : request) :
  (writes (fst (upload w r)) = []
   \/ writes (fst (upload w r)) = [original_path_of w r])
  /\ (runs (fst (upload w r)) = []
      \/ runs (fst (upload w r)) = [encoder_argv_of w r]
      \/ runs (fst (upload w r))
         = [encoder_argv_of w r; transcriber_argv w r])
  /\ List.length (gcs_uploads (fst (upload w r))) <= 1.
Proof.
  destruct (upload_trace_cases w r)
    as [[H _]|[[H _]|[[_ H]|[out [err [_ H]]]]]]; rewrite H; simpl; auto.
  destruct (publish_trace_shape w r) as [Hw [Hr Hg]].
  rewrite Hw; split; [auto|split; [|exact Hg]].
  destruct Hr as [-> | ->]; auto.
Qed.

(** X11: nothing is published before the conversion has succeeded: when
    there is a response, a call to the storage client or a second command,
    the trace starts with the write of the original and the run of the
    encoder, which exited with status 0; every call to the storage client
    and every other command comes after them. *)
Theorem upload_publish_only_after_encode (w : world) (r : request) :
  (exists j, snd (upload w r) = Ok j)
  \/ gcs_calls (fst (upload w r)) <> []
  \/ 1 < List.length (runs (fst (upload w r))) ->
  exists out err rest,
    spawn w (encoder_argv_of w r) = Exited 0 out err
    /\ fst (upload w r)
       = EvWriteBytes (original_path_of w r) (content (file r))
         :: EvRun (encoder_argv_of w r) (Exited 0 out err) :: rest
    /\ gcs_calls (fst (upload w r)) = gcs_calls rest
    /\ runs (fst (upload w r)) = encoder_argv_of w r :: runs rest.
Proof.
  intros H.
  destruct (upload_trace_cases w r)
    as [[Ht Hn]|[[Ht Hn]|[[Hn Ht]|[out [err [Hs Hu]]]]]].
  - rewrite Ht in H; simpl in H.
    destruct H as [[j Hj]|[H|H]];
      [contradiction (Hn j Hj)|contradiction H; reflexivity|lia].
  - rewrite Ht in H; simpl in H.
    destruct H as [[j Hj]|[H|H]];
      [contradiction (Hn j Hj)|contradiction H; reflexivity|lia].
  - rewrite Ht in H; simpl in H.
    destruct H as [[j Hj]|[H|H]];
      [contradiction (Hn j Hj)|contradiction H; reflexivity|lia].
  - exists out, err, (fst (publish_and_respond w r)).
    rewrite Hu; repeat split; exact Hs.
Qed.

(** ** The health endpoint *)

(** X12: the binary that [/api/health] reports is the one [upload] runs:
    the encoder's command starts with the [ffmpeg] field of the health
    answer, which is either the bundled [<BASE_DIR>/ffmpeg] or the bare name
    [ffmpeg] left to the search path. *)
Theorem health_reports_encoder (w : world) (r : request) :
  str_falsy (filename (file r)) = false -> content (file r) <> [] ->
  persisted w r ->
  check_trim (trim_start r) (trim_end r) = ([], Ok tt) ->
  exists bin opts,
    field "ffmpeg" (health w) = Some (JStr bin)
    /\ field "ok" (health w) = Some (JBool true)
    /\ hd_error (runs (fst (upload w r))) = Some (bin :: opts)
    /\ (bin = lit "ffmpeg" \/ bin = joinpath (base_dir w) (lit "ffmpeg")).
Proof.
  intros Hf Hc Hp Hk.
  destruct (upload_converting_trace w r Hf Hc Hp Hk) as [rest Hrest].
  exists (_ffmpeg_bin w); rewrite Hrest; simpl runs; simpl hd_error.
  unfold encoder_argv, ffmpeg_cmd.
  destruct (trim_start r), (trim_end r); simpl;
    eexists; (split; [reflexivity|split; [reflexivity|split; [reflexivity|]]]);
    unfold _ffmpeg_bin; destruct (local_ffmpeg_ok w); auto.
Qed.

(** ** Names *)

Lemma encoder_argv_ends (w : world) (op mp : pystr) (ts te : option float) :
  nth_error (encoder_argv w op mp ts te) 4 = Some (lit "-i")
  /\ nth_error (encoder_argv w op mp ts te) 5 = Some op
  /\ last (encoder_argv w op mp ts te) [] = mp.
Proof.
  unfold encoder_argv, ffmpeg_cmd; destruct ts, te; repeat split.
Qed.

(** X13: the original and the MP3 share one path exactly when the
    extension of the upload, lowercased, is [.mp3]; the encoder is then
    given the same file as its input (after ["-i"]) and as its output (the
    last argument). *)
Theorem upload_mp3_collision_iff (w : world) (r : request) :
  (original_path_of w r = mp3_path_of w r
   <-> lower (str_or (path_suffix (fname_of r)) (lit ".bin")) = lit ".mp3")
  /\ nth_error (encoder_argv_of w r) 4 = Some (lit "-i")
  /\ nth_error (encoder_argv_of w r) 5 = Some (original_path_of w r)
  /\ last (encoder_argv_of w r) [] = mp3_path_of w r.
Proof.
  split; [|apply encoder_argv_ends].
  unfold original_path_of, mp3_path_of, original_name_of, mp3_name_of; split.
  - intros H; apply joinpath_inj in H; exact (app_inv_head _ _ _ H).
  - intros ->; reflexivity.
Qed.

End PublishSteps.

(** ** More on the sanitizer *)

Section SanitizerShape.

Context {rt : Runtime}.

Lemma char_in_underscore (c : N) : char_in c (lit "_") = false <-> c <> 95%N.
Proof.
  unfold char_in, lit; simpl; rewrite orb_false_r; apply N.eqb_neq.
Qed.

Lemma last_rev_cons (d : N) (u : pystr) (x : N) : last (rev (d :: u)) x = d.
Proof. simpl; apply last_last. Qed.

Lemma hd_rev_last (s : pystr) (x : N) : hd x (rev s) = last s x.
Proof.
  destruct s as [|a s] using rev_ind; [reflexivity|].
  rewrite rev_app_distr, last_last; reflexivity.
Qed.

Lemma strip_ends (chars s : pystr) (c : N) (t : pystr) :
  strip chars s = c :: t ->
  char_in c chars = false /\ char_in (last (c :: t) 0%N) chars = false.
Proof.
  intros E; split.
  - unfold strip in E.
    destruct (rstrip_is_prefix chars (lstrip chars s)) as [q Hq].
    rewrite E in Hq; exact (lstrip_head _ _ Hq).
  - rewrite <- E; unfold strip, rstrip.
    destruct (lstrip chars (rev (lstrip chars s))) as [|d u] eqn:El.
    + unfold strip, rstrip in E; rewrite El in E; discriminate.
    + rewrite last_rev_cons; exact (lstrip_head _ _ El).
Qed.

Lemma safe_stem_is_safe (s : pystr) : stem_safe (_safe_stem s).
Proof.
  unfold stem_safe; split; [|split; [intros c; apply safe_stem_chars|]].
  - rewrite safe_stem_unfold.
    destruct (strip (lit "_") (List.map sanitize_char s)); discriminate.
  - rewrite safe_stem_unfold.
    destruct (strip (lit "_") (List.map sanitize_char s)) as [|c t] eqn:E;
      simpl str_or; [split; discriminate|].
    destruct (strip_ends _ _ E) as [H1 H2].
    split; apply char_in_underscore; assumption.
Qed.

Lemma safe_stem_of_safe (s : pystr) : stem_safe s -> _safe_stem s = s.
Proof.
  intros [Hne [Hok [Hhd Hlast]]].
  rewrite safe_stem_unfold, (map_sanitize_fixed s Hok).
  unfold strip; rewrite lstrip_fixed.
  - unfold rstrip; rewrite lstrip_fixed, rev_involutive.
    + destruct s; [contradiction|reflexivity].
    + destruct (rev s) as [|d u] eqn:E; [exact I|].
      apply char_in_underscore.
      rewrite <- (hd_rev_last s 0%N), E in Hlast; exact Hlast.
  - destruct s as [|c t]; [exact I|].
    apply char_in_underscore; exact Hhd.
Qed.

(** X14: a sanitized stem is never empty, neither starts nor ends with an
    underscore, and holds no slash, backslash, dot, space or NUL: it is one
    plain path component that cannot leave the recordings directory. *)
Theorem safe_stem_shape (s : pystr) :
  _safe_stem s <> []
  /\ hd 0%N (_safe_stem s) <> 95%N
  /\ last (_safe_stem s) 0%N <> 95%N
  /\ (forall c, In c [47; 92; 46; 32; 0]%N -> ~ In c (_safe_stem s)).
Proof.
  destruct (safe_stem_is_safe s) as [H1 [H2 [H3 H4]]].
  repeat split; try assumption.
  intros c Hc Hin; apply H2 in Hin.
  simpl in Hc; destruct Hc as [<-|[<-|[<-|[<-|[<-|[]]]]]]; discriminate.
Qed.

(** X15: the names [_safe_stem] leaves unchanged are exactly the safe
    ones: not empty, made only of alphanumerics, ['-'] and ['_'], with no
    underscore at either end. *)
Theorem safe_stem_fixed_iff (s : pystr) :
  _safe_stem s = s <-> stem_safe s.
Proof.
  split; [intros <-; apply safe_stem_is_safe|apply safe_stem_of_safe].
Qed.

End SanitizerShape.

(** * The transcription script *)

Lemma tbind_ok {E A B} (m : T E A) (f : A -> T E B) (a : A) :
  snd m = Ok a -> tbind m f = (fst m ++ fst (f a), snd (f a)).
Proof. unfold tbind; intros ->; reflexivity. Qed.

Lemma tbind_raise {E A B} (m : T E A) (f : A -> T E B) (e : exn) :
  snd m = Raise e -> tbind m f = (fst m, Raise e).
Proof. unfold tbind; intros ->; reflexivity. Qed.

Lemma rfind_none (c : N) (s : pystr) : rfind c s = None -> ~ In c s.
Proof.
  induction s as [|x t IH]; simpl; [auto|].
  destruct (rfind c t); [discriminate|].
  destruct (N.eqb x c) eqn:E; [discriminate|].
  intros _ [H|H]; [|exact (IH eq_refl H)].
  apply N.eqb_neq in E; contradiction.
Qed.

Lemma rfind_some_after (c : N) (s : pystr) (i : nat) :
  rfind c s = Some i -> ~ In c (skipn (S i) s) /\ nth_error s i = Some c.
Proof.
  revert i; induction s as [|x t IH]; simpl; [discriminate|].
  intros i; destruct (rfind c t) as [j|] eqn:E.
  - intros H; injection H as <-; exact (IH j eq_refl).
  - destruct (N.eqb x c) eqn:Ex; [|discriminate].
    intros H; injection H as <-; apply N.eqb_eq in Ex; subst x.
    split; [exact (rfind_none _ _ E)|reflexivity].
Qed.

Lemma firstn_S_nth_error {A} (l : list A) (i : nat) (x : A) :
  nth_error l i = Some x -> firstn (S i) l = firstn i l ++ [x].
Proof.
  revert i; induction l as [|y t IH]; intros [|i]; simpl;
    try discriminate.
  - intros H; injection H as ->; reflexivity.
  - intros H; f_equal; exact (IH i H).
Qed.

Lemma basename_after_last_slash (p : pystr) :
  exists dir,
    p = dir ++ basename p
    /\ ~ In 47%N (basename p)
    /\ (dir = [] \/ exists d, dir = d ++ [47%N]).
Proof.
  unfold basename; destruct (rfind 47%N p) as [i|] eqn:E.
  - destruct (rfind_some_after _ _ E) as [Hn Hi].
    exists (firstn (S i) p); split; [symmetry; apply firstn_skipn|].
    split; [exact Hn|right].
    exists (firstn i p); exact (firstn_S_nth_error _ _ Hi).
  - exists []; split; [reflexivity|].
    split; [exact (rfind_none _ _ E)|left; reflexivity].
Qed.

(** X17: once the imports have worked and [parse_args] has returned,
    a run without a project, or without a bucket (neither [--bucket] nor
    [GOOGLE_CLOUD_BUCKET]; an empty [--bucket] counts as none), raises
    [SystemExit] with a message, which ends the process with status 1,
    before it has printed anything or called any service. *)
Theorem stt_main_missing_config (w : Stt.world)
    (audio_file bucket : option pystr) :
  Stt.imports w = None ->
  str_falsy (Stt.PROJECT_ID w) = true
  \/ str_falsy (match bucket with
                | Some b => Some b
                | None => Stt.DEFAULT_BUCKET w
                end) = true ->
  fst (Stt.main w (Stt.Parsed audio_file bucket)) = []
  /\ (exists msg,
        snd (Stt.main w (Stt.Parsed audio_file bucket))
        = Stt.RaisedSystemExit msg)
  /\ Stt.exit_status (snd (Stt.main w (Stt.Parsed audio_file bucket)))
     = Some 1%Z.
Proof.
  intros Hi H; unfold Stt.main; rewrite Hi.
  destruct (str_falsy (Stt.PROJECT_ID w));
    [split; [|split; [eexists|]]; reflexivity|].
  destruct H as [H|H]; [discriminate|].
  rewrite H; split; [|split; [eexists|]]; reflexivity.
Qed.

(** X18: when the bucket does not exist, [transcribe_long_audio] raises a
    [RuntimeError] that names the bucket and the project; nothing has been
    uploaded and the speech service has not been called. *)
Theorem stt_missing_bucket (w : Stt.world) (input_file bucket : pystr) :
  Stt.storage_client w = None -> Stt.bucket_exists w bucket = inr false ->
  Stt.transcribe_long_audio w input_file bucket
  = ([Stt.StorageClient (Stt.PROJECT_ID w); Stt.BucketExists bucket],
     Raise (RuntimeError
              (lit "Bucket '" ++ bucket
               ++ lit "' does not exist or is not accessible in project '"
               ++ str_of_optional (Stt.PROJECT_ID w) ++ lit "'."))).
Proof.
  intros Hc Hb.
  unfold Stt.transcribe_long_audio, Stt.upload_to_gcs, tbind, tcall,
    tcall_value.
  rewrite Hc; simpl; rewrite Hb; reflexivity.
Qed.


Lemma tbind_fst {E A B} (m : T E A) (f : A -> T E B) :
  fst (tbind m f)
  = fst m ++ match snd m with Ok a => fst (f a) | Raise _ => [] end.
Proof.
  unfold tbind; destruct (snd m); simpl; [|rewrite app_nil_r]; reflexivity.
Qed.

Lemma print_segments_ok (l : list (list pystr)) (n : nat) :
  snd (Stt.print_segments n l) = Ok tt.
Proof.
  revert n; induction l as [|r l IH]; intros n; simpl; [reflexivity|].
  unfold tbind; destruct r; simpl; apply IH.
Qed.

Lemma print_segments_stdout (l : list (list pystr)) (n : nat)
    (ev : Stt.event) :
  In ev (fst (Stt.print_segments n l)) -> exists line, ev = Stt.Stdout line.
Proof.
  revert n; induction l as [|r l IH]; intros n; simpl; [intros []|].
  rewrite tbind_fst, in_app_iff; intros [H|H].
  - destruct r; simpl in H; [contradiction|].
    destruct H as [<-|[]]; eexists; reflexivity.
  - destruct r; simpl in H; exact (IH _ H).
Qed.

Ltac tauto_br :=
  repeat match goal with
         | H : _ \/ _ |- _ => destruct H as [H|H]
         | H : _ = Stt.BatchRecognize _ _ |- _ => discriminate H
         | H : False |- _ => contradiction
         | H : In _ [] |- _ => contradiction
         end.

Ltac stt_step :=
  cbn [fst snd tbind tcall tcall_value tret traise temit negb app].

Ltac no_br :=
  solve [intros ? ? H; cbn [In] in H; tauto_br].

(** The events that may follow the recognition request. *)
Lemma stt_trace_shape (w : Stt.world) (input_file bucket : pystr) :
  let blob :=
    lit "uploads/" ++ Stt.uuid4 w ++ lit "_" ++ basename input_file in
  let t := fst (Stt.transcribe_long_audio w input_file bucket) in
  (forall recognizer uri, ~ In (Stt.BatchRecognize recognizer uri) t)
  \/ exists line tail,
       t = [Stt.StorageClient (Stt.PROJECT_ID w); Stt.BucketExists bucket;
            Stt.UploadFile bucket blob input_file; Stt.Stdout line;
            Stt.SpeechClientNew;
            Stt.BatchRecognize
              (lit "projects/" ++ str_of_optional (Stt.PROJECT_ID w)
               ++ lit "/locations/global/recognizers/_")
              (lit "gs://" ++ bucket ++ lit "/" ++ blob)] ++ tail
       /\ forall recognizer uri,
            ~ In (Stt.BatchRecognize recognizer uri) tail.
Proof.
  intros blob t; subst t.
  unfold Stt.transcribe_long_audio, Stt.upload_to_gcs, Stt.print.
  destruct (Stt.storage_client w); stt_step; [left; no_br|].
  destruct (Stt.bucket_exists w bucket) as [e|[|]]; stt_step;
    [left; no_br| |left; no_br].
  destruct (Stt.upload_from_filename w bucket _ input_file); stt_step;
    [left; no_br|].
  destruct (Stt.speech_client w); stt_step; [left; no_br|].
  right; eexists; eexists; split; [reflexivity|].
  destruct (Stt.batch_recognize w _ _); stt_step; [no_br|].
  destruct (Stt.operation_result w) as [e|[|[k res] rest]]; stt_step;
    [no_br|no_br|].
  destruct (Stt.error_code res =? 0)%Z; stt_step; [|no_br].
  destruct (Stt.transcript_results res) as [|r0 rs]; stt_step; [no_br|].
  rewrite tbind_fst, print_segments_ok; stt_step; rewrite app_nil_r.
  intros recognizer uri H; cbn [In] in H; tauto_br.
  apply print_segments_stdout in H; destruct H as [line H]; discriminate.
Qed.

(** X16: the object [upload_to_gcs] uploads is named
    [uploads/<uuid>_<name>], where [name] is the part of the local path
    after its last slash: the path is [dir ++ name], [name] holds no slash,
    and [dir] is empty or ends with a slash.  The object goes to the bucket
    asked for, from the local path, and the URI returned on success is
    [gs://<bucket>/] followed by that object name. *)
Theorem stt_upload_object_name (w : Stt.world)
    (local_path bucket_name : pystr) (project_id : option pystr)
    (b blob src : pystr) :
  In (Stt.UploadFile b blob src)
     (fst (Stt.upload_to_gcs w local_path bucket_name project_id)) ->
  b = bucket_name /\ src = local_path
  /\ (exists dir name,
        local_path = dir ++ name /\ ~ In 47%N name
        /\ (dir = [] \/ exists d, dir = d ++ [47%N])
        /\ blob = lit "uploads/" ++ Stt.uuid4 w ++ lit "_" ++ name)
  /\ (forall uri,
        snd (Stt.upload_to_gcs w local_path bucket_name project_id) = Ok uri ->
        uri = lit "gs://" ++ bucket_name ++ lit "/" ++ blob).
Proof.
  unfold Stt.upload_to_gcs.
  destruct (Stt.storage_client w); stt_step;
    [intros H; cbn [In] in H; destruct H as [H|[]]; discriminate H|].
  destruct (Stt.bucket_exists w bucket_name) as [e|[|]]; stt_step;
    try (intros H; cbn [In] in H; destruct H as [H|[H|[]]];
         discriminate H).
  assert (Hev : forall t : list Stt.event,
            In (Stt.UploadFile b blob src)
               (Stt.StorageClient project_id :: Stt.BucketExists bucket_name
                :: Stt.UploadFile bucket_name
                     (lit "uploads/" ++ Stt.uuid4 w ++ lit "_"
                      ++ basename local_path) local_path :: t) ->
            (forall ev, In ev t -> ev <> Stt.UploadFile b blob src) ->
            b = bucket_name /\ src = local_path
            /\ blob = lit "uploads/" ++ Stt.uuid4 w ++ lit "_"
                      ++ basename local_path).
  { intros t H Ht; cbn [In] in H.
    destruct H as [H|[H|[H|H]]]; try discriminate H.
    - injection H as <- <- <-; auto.
    - contradiction (Ht _ H eq_refl). }
  destruct (basename_after_last_slash local_path) as [dir [Hdir [Hns Hd]]].
  destruct (Stt.upload_from_filename w _ _ _); stt_step; intros H;
    destruct (Hev [] H (fun ev Hin => match Hin with end))
      as [-> [-> ->]];
    (split; [reflexivity|split; [reflexivity|split]]);
    try (exists dir, (basename local_path); auto);
    intros uri Hu; [discriminate Hu|injection Hu as <-; reflexivity].
Qed.

(** X19: the speech service is only ever asked about the object that has
    just been uploaded: a recognition request in the trace has the URI
    [gs://<bucket>/uploads/<uuid>_<basename>] and the recognizer of the
    project, and the upload of that very object from the input file comes
    before it in the trace. *)
Theorem stt_recognizes_what_it_uploaded (w : Stt.world)
    (input_file bucket recognizer uri : pystr) :
  In (Stt.BatchRecognize recognizer uri)
     (fst (Stt.transcribe_long_audio w input_file bucket)) ->
  let blob :=
    lit "uploads/" ++ Stt.uuid4 w ++ lit "_" ++ basename input_file in
  uri = lit "gs://" ++ bucket ++ lit "/" ++ blob
  /\ recognizer = lit "projects/" ++ str_of_optional (Stt.PROJECT_ID w)
                  ++ lit "/locations/global/recognizers/_"
  /\ exists before between after,
       fst (Stt.transcribe_long_audio w input_file bucket)
       = before ++ Stt.UploadFile bucket blob input_file
           :: between ++ Stt.BatchRecognize recognizer uri :: after.
Proof.
  intros H blob.
  destruct (stt_trace_shape w input_file bucket)
    as [Hn|[line [tail [Ht Hn]]]]; [contradiction (Hn _ _ H)|].
  fold blob in Ht; rewrite Ht in H |- *.
  apply in_app_iff in H; destruct H as [H|H]; [|contradiction (Hn _ _ H)].
  cbn [In] in H.
  repeat match goal with
         | H : _ \/ _ |- _ => destruct H as [H|H]; try discriminate H
         | H : False |- _ => contradiction
         end.
  injection H as <- <-.
  split; [reflexivity|split; [reflexivity|]].
  exists [Stt.StorageClient (Stt.PROJECT_ID w); Stt.BucketExists bucket],
         [Stt.Stdout line; Stt.SpeechClientNew], tail.
  reflexivity.
Qed.

Ltac stt_dead :=
  solve [split;
         [intros HH; cbn [Stt.exit_status snd fst] in HH;
          try destruct (derives_from_Exception _); discriminate HH
         |intros HH; decompose [and ex] HH; congruence]].

(** X20: the program ends with status 0 exactly when the imports work
    and either [parse_args] itself exits with status 0 (as [--help] does),
    or it returns, a project and a bucket are configured, every call
    succeeds, and the first file of the answer carries no error code;
    whether that file has any transcript text plays no part.  (A run cut
    short by a [KeyboardInterrupt] or a [SystemExit] that comes out of a
    library call has no status in the model and is not counted here.) *)
Theorem stt_exit_zero_iff (w : Stt.world) (cmdline : Stt.parse_outcome) :
  Stt.exit_status (snd (Stt.main w cmdline)) = Some 0%Z
  <-> (Stt.imports w = None
       /\ match cmdline with
          | Stt.ParseExit _ status => status = 0%Z
          | Stt.Parsed audio_file bucket =>
              let f := match audio_file with
                       | Some f => f
                       | None => lit "apple_history.mp3"
                       end in
              let b := str_of_optional (match bucket with
                                        | Some b => Some b
                                        | None => Stt.DEFAULT_BUCKET w
                                        end) in
              let blob :=
                lit "uploads/" ++ Stt.uuid4 w ++ lit "_" ++ basename f in
              str_falsy (Stt.PROJECT_ID w) = false
              /\ str_falsy (match bucket with
                            | Some b => Some b
                            | None => Stt.DEFAULT_BUCKET w
                            end) = false
              /\ Stt.storage_client w = None
              /\ Stt.bucket_exists w b = inr true
              /\ Stt.upload_from_filename w b blob f = None
              /\ Stt.speech_client w = None
              /\ Stt.batch_recognize w
                   (lit "projects/" ++ str_of_optional (Stt.PROJECT_ID w)
                    ++ lit "/locations/global/recognizers/_")
                   (lit "gs://" ++ b ++ lit "/" ++ blob) = None
              /\ exists key res rest,
                   Stt.operation_result w = inr ((key, res) :: rest)
                   /\ Stt.error_code res = 0%Z
          end).
Proof.
  destruct cmdline as [printed status|audio_file bucket].
  { unfold Stt.main; destruct (Stt.imports w) eqn:Ei; [stt_dead|].
    cbn [Stt.exit_status snd]; split.
    - intros H; injection H as ->; auto.
    - intros [_ ->]; reflexivity. }
  cbv zeta; unfold Stt.main.
  destruct (Stt.imports w) eqn:Ei; [stt_dead|].
  destruct (str_falsy (Stt.PROJECT_ID w)) eqn:Ep; [stt_dead|].
  destruct (str_falsy (match bucket with
                        | Some b => Some b
                        | None => Stt.DEFAULT_BUCKET w
                        end)) eqn:Eb; [stt_dead|].
  unfold Stt.transcribe_long_audio, Stt.upload_to_gcs, Stt.print.
  destruct (Stt.storage_client w) eqn:Ec; stt_step; [stt_dead|].
  destruct (Stt.bucket_exists w _) as [e|[|]] eqn:Ee; stt_step;
    [stt_dead| |stt_dead].
  destruct (Stt.upload_from_filename w _ _ _) eqn:Eu; stt_step; [stt_dead|].
  destruct (Stt.speech_client w) eqn:Es; stt_step; [stt_dead|].
  destruct (Stt.batch_recognize w _ _) eqn:Er; stt_step; [stt_dead|].
  destruct (Stt.operation_result w) as [e|[|[k res] rest]] eqn:Eo; stt_step;
    [stt_dead|stt_dead|].
  destruct (Stt.error_code res =? 0)%Z eqn:Ez; stt_step.
  - apply Z.eqb_eq in Ez.
    split; [intros _; repeat split; eauto 6|intros _].
    destruct (Stt.transcript_results res); stt_step; [reflexivity|].
    rewrite (tbind_ok _ _ (print_segments_ok _ _)); reflexivity.
  - apply Z.eqb_neq in Ez.
    split; [intros HH; discriminate HH|].
    intros HH; decompose [and ex] HH.
    match goal with H : inr _ = inr _ |- _ => injection H as <- <- <- end.
    contradiction.
Qed.

(** * The command-line recorder *)

Section CliProps.

Context {rt : Runtime}.

Ltac cli_step :=
  cbn [fst snd tbind tcatch_Exception tcall tret traise temit app exc_str
       Cli.print Cli.removes Cli.exports Cli.wav_writes flat_map].



(** X22: there is no cleanup on failure: when the WAV has been written but
    reading it back or exporting the MP3 fails with an exception that
    derives from [Exception], the temporary WAV is never removed; the error
    is printed and the result is [None]. *)
Theorem cli_wav_left_behind (w : Cli.world) (data : list Z) (rate : Z)
    (e : pyexc) :
  derives_from_Exception (exc_cls e) = true ->
  Cli.wavwrite w (Cli.wav_name w) = None ->
  Cli.from_wav w (Cli.wav_name w) = Some e
  \/ (Cli.from_wav w (Cli.wav_name w) = None
      /\ Cli.export w (Cli.mp3_name w) = Some e) ->
  snd (Cli.save_recording w (Some data) rate) = Ok None
  /\ Cli.wav_writes (fst (Cli.save_recording w (Some data) rate))
     = [Cli.wav_name w]
  /\ Cli.removes (fst (Cli.save_recording w (Some data) rate)) = []
  /\ In (Cli.Stdout (lit "Error saving recording: " ++ exc_str e))
        (fst (Cli.save_recording w (Some data) rate)).
Proof.
  unfold Cli.save_recording, Cli.wav_name, Cli.mp3_name.
  intros He H1 [H2|[H2 H3]]; rewrite H1; cli_step; rewrite H2; cli_step.
  - rewrite He; cli_step; repeat split; auto.
    right; right; left; reflexivity.
  - rewrite H3; cli_step; rewrite He; cli_step; repeat split; auto.
    right; right; right; left; reflexivity.
Qed.

(** X23: when only the removal of the temporary WAV fails (with an
    exception that derives from [Exception], as an [OSError] does), the MP3
    has already been exported, yet the function prints the error and
    returns [None], as if nothing had been saved. *)
Theorem cli_remove_failure_hides_mp3 (w : Cli.world) (data : list Z)
    (rate : Z) (e : pyexc) :
  derives_from_Exception (exc_cls e) = true ->
  Cli.wavwrite w (Cli.wav_name w) = None ->
  Cli.from_wav w (Cli.wav_name w) = None ->
  Cli.export w (Cli.mp3_name w) = None ->
  Cli.os_remove w (Cli.wav_name w) = Some e ->
  Cli.save_recording w (Some data) rate
  = ([Cli.WavWrite (Cli.wav_name w) rate data;
      Cli.FromWav (Cli.wav_name w);
      Cli.Export (Cli.mp3_name w) (lit "mp3");
      Cli.Remove (Cli.wav_name w);
      Cli.Stdout (lit "Error saving recording: " ++ exc_str e)],
     Ok None).
Proof.
  unfold Cli.save_recording, Cli.wav_name, Cli.mp3_name.
  intros He H1 H2 H3 H4; rewrite H1; cli_step; rewrite H2; cli_step.
  rewrite H3; cli_step; rewrite H4; cli_step; rewrite He; reflexivity.
Qed.

End CliProps.

(** * The further properties at concrete inputs *)

Lemma upload_encoder_failed_witness :
  upload world_ffmpeg_fails req_auto_both
  = ([EvWriteBytes (lit "/srv/app/recordings/demo_2025-01-04_10-00-00.wav")
        [Byte.x52; Byte.x49];
      EvRun (encoder_argv_of world_ffmpeg_fails req_auto_both)
            (Exited 1 [] [])],
     Raise (HTTPException 500 (lit "ffmpeg failed: non-zero exit status"))).
Proof.
  apply (upload_encoder_failed world_ffmpeg_fails req_auto_both
           (rc:=1) (out:=[]) (err:=[]));
    [reflexivity|discriminate|reflexivity|reflexivity|reflexivity|discriminate].
Defined.

Lemma upload_bad_request_iff_witness :
  bad_request (snd (upload demo_world req_negative_trim))
  /\ ~ bad_request (snd (upload demo_world req_trim_nan))
  /\ ~ bad_request (snd (upload world_name_max req_long_name_bad_trim)).
Proof.
  split; [|split].
  - apply (proj2 (upload_bad_request_iff demo_world req_negative_trim)).
    right; right; split; [reflexivity|].
    left; exists f_minus_one; split; reflexivity.
  - intros H.
    apply (proj1 (upload_bad_request_iff demo_world req_trim_nan)) in H.
    destruct H
      as [H|[H|[_ [[ts [H _]]|[[te [H1 H2]]|[ts [te [H _]]]]]]]];
      try discriminate.
    injection H1 as <-; discriminate.
  - intros H.
    apply (proj1 (upload_bad_request_iff world_name_max
                    req_long_name_bad_trim)) in H.
    destruct H as [H|[H|[H _]]]; [discriminate H|discriminate H|].
    vm_compute in H; discriminate H.
Defined.

Lemma upload_negative_trim_start_detail_witness :
  upload demo_world req_negative_trim
  = ([EvWriteBytes (lit "/srv/app/recordings/demo_2025-01-04_10-00-00.wav")
        [Byte.x52; Byte.x49]],
     Raise (HTTPException 400 (lit "trim_start must be >= 0"))).
Proof.
  apply (upload_negative_trim_start_detail demo_world req_negative_trim
           (ts:=f_minus_one));
    [reflexivity|discriminate|reflexivity|reflexivity|reflexivity].
Defined.

Lemma upload_nan_trim_end_accepted_witness :
  ~ bad_request (snd (upload demo_world req_trim_nan))
  /\ exists argv pre post,
       hd_error (runs (fst (upload demo_world req_trim_nan))) = Some argv
       /\ argv = pre ++ [lit "-t"; lit "nan"] ++ post.
Proof.
  apply (upload_nan_trim_end_accepted demo_world req_trim_nan);
    [reflexivity|discriminate|reflexivity|reflexivity|discriminate].
Defined.

Lemma upload_transcription_mirrors_exit_witness :
  snd (upload world_stt_fails req_auto_stt)
  = Ok (response_of world_stt_fails req_auto_stt false false)
  /\ stderr_lines (fst (upload world_stt_fails req_auto_stt))
     = [lit "Auto transcription failed: Error: GOOGLE_CLOUD_PROJECT environment variable not set."].
Proof.
  rewrite (upload_transcription_mirrors_exit world_stt_fails req_auto_stt
             (o:=[]) (e:=[]) (rc:=1) (out:=[])
             (err:=lit "Error: GOOGLE_CLOUD_PROJECT environment variable not set."));
    [split; reflexivity|reflexivity|discriminate|reflexivity|reflexivity|reflexivity
    |discriminate|reflexivity|reflexivity].
Defined.





Lemma upload_publish_only_after_encode_witness :
  exists out err rest,
    spawn demo_world (encoder_argv_of demo_world req_session)
    = Exited 0 out err
    /\ fst (upload demo_world req_session)
       = EvWriteBytes (original_path_of demo_world req_session)
           (content (file req_session))
         :: EvRun (encoder_argv_of demo_world req_session)
              (Exited 0 out err) :: rest
    /\ gcs_calls (fst (upload demo_world req_session)) = gcs_calls rest
    /\ runs (fst (upload demo_world req_session))
       = encoder_argv_of demo_world req_session :: runs rest.
Proof.
  apply (upload_publish_only_after_encode demo_world req_session).
  left; eexists; reflexivity.
Defined.

Lemma health_reports_encoder_witness :
  exists bin opts,
    field "ffmpeg" (health demo_world) = Some (JStr bin)
    /\ field "ok" (health demo_world) = Some (JBool true)
    /\ hd_error (runs (fst (upload demo_world req_session)))
       = Some (bin :: opts)
    /\ (bin = lit "ffmpeg"
        \/ bin = joinpath (base_dir demo_world) (lit "ffmpeg")).
Proof.
  apply (health_reports_encoder demo_world req_session);
    [reflexivity|discriminate|reflexivity|reflexivity].
Defined.

Lemma upload_mp3_collision_iff_witness :
  original_path_of demo_world req_mp3 = mp3_path_of demo_world req_mp3
  /\ original_path_of demo_world req_session
     <> mp3_path_of demo_world req_session.
Proof.
  split.
  - apply (proj2 (proj1 (upload_mp3_collision_iff demo_world req_mp3)));
      reflexivity.
  - intros H.
    apply (proj1 (proj1 (upload_mp3_collision_iff demo_world req_session)))
      in H.
    discriminate H.
Defined.

Lemma safe_stem_shape_witness :
  @_safe_stem demo_runtime (lit "../../etc/pass wd") <> []
  /\ ~ In 47%N (@_safe_stem demo_runtime (lit "../../etc/pass wd"))
  /\ ~ In 46%N (@_safe_stem demo_runtime (lit "../../etc/pass wd")).
Proof.
  destruct (@safe_stem_shape demo_runtime (lit "../../etc/pass wd"))
    as [H1 [_ [_ H4]]].
  split; [exact H1|split; apply H4; simpl; auto].
Defined.

Lemma safe_stem_fixed_iff_witness :
  @_safe_stem demo_runtime (lit "take-01_b") = lit "take-01_b"
  /\ ~ @stem_safe demo_runtime (lit "_take").
Proof.
  split.
  - apply (proj2 (@safe_stem_fixed_iff demo_runtime (lit "take-01_b"))).
    unfold stem_safe; repeat split; try discriminate.
    intros c Hc; simpl in Hc.
    repeat (destruct Hc as [<-|Hc]; [reflexivity|]); contradiction.
  - intros H.
    apply (proj2 (@safe_stem_fixed_iff demo_runtime (lit "_take"))) in H.
    discriminate H.
Defined.

Lemma stt_main_missing_config_witness :
  fst (Stt.main Stt.world_no_project
         (Stt.Parsed (Some (lit "take.mp3")) None)) = []
  /\ (exists msg,
        snd (Stt.main Stt.world_no_project
               (Stt.Parsed (Some (lit "take.mp3")) None))
        = Stt.RaisedSystemExit msg)
  /\ Stt.exit_status
       (snd (Stt.main Stt.world_no_project
               (Stt.Parsed (Some (lit "take.mp3")) None)))
     = Some 1%Z.
Proof.
  apply (stt_main_missing_config Stt.world_no_project);
    [reflexivity|left; reflexivity].
Defined.

Lemma stt_missing_bucket_witness :
  Stt.transcribe_long_audio Stt.world_no_bucket (lit "take.mp3")
    (lit "studio-bucket")
  = ([Stt.StorageClient (Some (lit "studio"));
      Stt.BucketExists (lit "studio-bucket")],
     Raise (RuntimeError
              (lit "Bucket 'studio-bucket' does not exist or is not accessible in project 'studio'."))).
Proof.
  apply (stt_missing_bucket Stt.world_no_bucket); reflexivity.
Defined.

Lemma stt_recognizes_what_it_uploaded_witness :
  exists before between after,
    fst (Stt.transcribe_long_audio (Stt.world_ok Stt.response_silent)
           (lit "/srv/app/recordings/take.mp3") (lit "studio-bucket"))
    = before
      ++ Stt.UploadFile (lit "studio-bucket")
           (lit "uploads/0f8fad5b-d9cb-469f-a165-70867728950e_take.mp3")
           (lit "/srv/app/recordings/take.mp3")
      :: between
      ++ Stt.BatchRecognize
           (lit "projects/studio/locations/global/recognizers/_")
           (lit "gs://studio-bucket/uploads/0f8fad5b-d9cb-469f-a165-70867728950e_take.mp3")
      :: after.
Proof.
  refine (proj2 (proj2 (stt_recognizes_what_it_uploaded
                          (Stt.world_ok Stt.response_silent)
                          (lit "/srv/app/recordings/take.mp3")
                          (lit "studio-bucket")
                          (lit "projects/studio/locations/global/recognizers/_")
                          (lit "gs://studio-bucket/uploads/0f8fad5b-d9cb-469f-a165-70867728950e_take.mp3")
                          _))).
  do 5 right; left; reflexivity.
Defined.

Lemma stt_exit_zero_iff_witness :
  Stt.exit_status
    (snd (Stt.main (Stt.world_ok Stt.response_silent)
            (Stt.Parsed (Some (lit "take.mp3")) None))) = Some 0%Z
  /\ Stt.exit_status
       (snd (Stt.main Stt.world_no_bucket
               (Stt.Parsed (Some (lit "take.mp3")) None)))
     <> Some 0%Z
  /\ Stt.exit_status
       (snd (Stt.main Stt.world_no_project
               (Stt.ParseExit [Stt.Stdout (lit "usage: gc_stt.py [-h] [--bucket BUCKET] [audio_file]")] 0)))
     = Some 0%Z
  /\ Stt.exit_status
       (snd (Stt.main (Stt.world_ok Stt.response_silent)
               (Stt.ParseExit [] 2)))
     <> Some 0%Z.
Proof.
  split; [|split; [|split]].
  - apply (proj2 (stt_exit_zero_iff (Stt.world_ok Stt.response_silent)
                    (Stt.Parsed (Some (lit "take.mp3")) None))).
    repeat split; try reflexivity.
    do 3 eexists; split; reflexivity.
  - intros H.
    apply (proj1 (stt_exit_zero_iff Stt.world_no_bucket
                    (Stt.Parsed (Some (lit "take.mp3")) None))) in H.
    destruct H as [_ [_ [_ [_ [H _]]]]]; discriminate H.
  - apply (proj2 (stt_exit_zero_iff Stt.world_no_project
                    (Stt.ParseExit [Stt.Stdout (lit "usage: gc_stt.py [-h] [--bucket BUCKET] [audio_file]")] 0))).
    split; reflexivity.
  - intros H.
    apply (proj1 (stt_exit_zero_iff (Stt.world_ok Stt.response_silent)
                    (Stt.ParseExit [] 2))) in H.
    destruct H as [_ H]; discriminate H.
Defined.


Lemma cli_wav_left_behind_witness :
  snd (Cli.save_recording Cli.world_export_fails (Some [0; 1; -1]%Z) 44100)
  = Ok None
  /\ Cli.wav_writes
       (fst (Cli.save_recording Cli.world_export_fails (Some [0; 1; -1]%Z)
               44100))
     = [lit "recording_2025-01-04_10-00-00.wav"]
  /\ Cli.removes
       (fst (Cli.save_recording Cli.world_export_fails (Some [0; 1; -1]%Z)
               44100))
     = [].
Proof.
  destruct (cli_wav_left_behind Cli.world_export_fails [0; 1; -1]%Z 44100
              (e:=PyExc FileNotFoundError
                    (lit "[Errno 2] No such file or directory: 'ffmpeg'")))
    as [H1 [H2 [H3 _]]];
    [reflexivity|reflexivity|right; split; reflexivity|].
  split; [exact H1|split; [exact H2|exact H3]].
Defined.

Lemma cli_remove_failure_hides_mp3_witness :
  snd (Cli.save_recording Cli.world_remove_fails (Some [0; 1; -1]%Z) 44100)
  = Ok None
  /\ Cli.exports
       (fst (Cli.save_recording Cli.world_remove_fails (Some [0; 1; -1]%Z)
               44100))
     = [lit "recording_2025-01-04_10-00-00.mp3"].
Proof.
  rewrite (cli_remove_failure_hides_mp3 Cli.world_remove_fails
             [0; 1; -1]%Z 44100
             (e:=PyExc OSError (lit "[Errno 13] Permission denied")));
    [split; reflexivity|reflexivity|reflexivity|reflexivity|reflexivity
    |reflexivity].
Defined.

Lemma stt_upload_object_name_witness :
  exists dir name,
    lit "/srv/app/recordings/take.mp3" = dir ++ name
    /\ ~ In 47%N name
    /\ (dir = [] \/ exists d, dir = d ++ [47%N])
    /\ lit "uploads/0f8fad5b-d9cb-469f-a165-70867728950e_take.mp3"
       = lit "uploads/" ++ lit "0f8fad5b-d9cb-469f-a165-70867728950e"
         ++ lit "_" ++ name.
Proof.
  refine (proj1 (proj2 (proj2
    (@stt_upload_object_name (Stt.world_ok [])
       (lit "/srv/app/recordings/take.mp3") (lit "studio-bucket")
       (Some (lit "studio")) (lit "studio-bucket")
       (lit "uploads/0f8fad5b-d9cb-469f-a165-70867728950e_take.mp3")
       (lit "/srv/app/recordings/take.mp3") _)))).
  right; right; left; reflexivity.
Defined.
